(** * Economic Zone Environmental Monitoring: threshold logic of [app.py]

    A shallow embedding of the decision logic of the dashboard script
    [src/app.py]: the per-station and per-water-body status cards, the
    compliance banding loop, the alert generation block and the control
    flow of [generate_environmental_data] as far as the loop variable
    [station] is concerned.

    The source as shipped.  Lines 110 and 138 end in the words "Weekly
    data" and "Monthly data" with no comment marker before them, so
    Python rejects the file with a SyntaxError.  Every block embedded here
    is valid Python by itself and is embedded as a function of its inputs;
    the two rejected loop headers are embedded as strings ([line_110],
    [line_138]), and [run_generate] says what becomes of the function with
    the headers as shipped and with the marker put in.

    Numbers.  The measured columns hold finite binary64 values (every
    sample is [np.random.normal] of finite arguments, most of them clamped
    with [max]) and the compliance rates are Python [int]s.  Both embed
    exactly into the rationals, and the literals they are compared with
    (35, 20, 6.5, 8.5, 90, 75) are exactly representable, so a comparison
    in the script is the comparison of the corresponding rationals.
    Values are therefore of type [Q].

    Frames.  A [pandas.DataFrame] is modelled as the list of its rows, in
    row order; the columns are the fields of the row record.  [df[mask]]
    is [filter mask df] and [len] is the length of the list.  The script
    builds its frames with [pd.DataFrame(rows)] from lists of dicts (lines
    104, 132, 153): a frame built from no row has no column, and reading
    a column of it raises [KeyError].  The blocks are embedded on frames
    that have their columns; [getitem] and [alerts_page] add the column
    lookups of the alert block. *)

From Stdlib Require Import QArith ZArith List String Ascii Bool Lia.
From Stdlib Require Import Sorted Permutation.
Import ListNotations.

Local Open Scope Q_scope.

(** ** Python comparisons on numbers *)

Module Py.

Definition gt (a b : Q) : bool := negb (Qle_bool a b).
Definition lt (a b : Q) : bool := negb (Qle_bool b a).
Definition ge (a b : Q) : bool := Qle_bool b a.

End Py.

(** ** Data model *)

Inductive Domain := air | water | biodiversity.

(** The measured columns of [air_df] (lines 93-102) and of [water_df]
    (lines 121-130). *)
Inductive Metric :=
  | PM2_5 | PM10 | SO2 | NO2 | O3 | CO
  | pH | Dissolved_Oxygen | BOD | COD | Turbidity | Heavy_Metals.

Definition Domain_eqb (a b : Domain) : bool :=
  match a, b with
  | air, air | water, water | biodiversity, biodiversity => true
  | _, _ => false
  end.

Definition Metric_eqb (a b : Metric) : bool :=
  match a, b with
  | PM2_5, PM2_5 | PM10, PM10 | SO2, SO2 | NO2, NO2 | O3, O3 | CO, CO
  | pH, pH | Dissolved_Oxygen, Dissolved_Oxygen | BOD, BOD | COD, COD
  | Turbidity, Turbidity | Heavy_Metals, Heavy_Metals => true
  | _, _ => false
  end.

(** A date of [dates] is its offset in days from 2023-01-01. *)
Definition date := nat.

(** One row of [air_df]: the dict appended at lines 93-102. *)
Module Air.
Record row := mk {
  Date : date;
  Station : string;
  PM2_5 : Q;
  PM10 : Q;
  SO2 : Q;
  NO2 : Q;
  O3 : Q;
  CO : Q
}.
End Air.

(** One row of [water_df]: the dict appended at lines 121-130. *)
Module Water.
Record row := mk {
  Date : date;
  Water_Body : string;
  pH : Q;
  Dissolved_Oxygen : Q;
  BOD : Q;
  COD : Q;
  Turbidity : Q;
  Heavy_Metals : Q
}.
End Water.

(** The two frames the threshold logic reads. *)
Record Store := {
  air_df : list Air.row;
  water_df : list Water.row
}.

(** A single measurement: one cell of a frame together with its row's
    date and site and its column's name. *)
Record Reading := {
  timestamp : date;
  site_id : string;
  domain : Domain;
  metric_name : Metric;
  value : Q
}.

Definition air_readings (r : Air.row) : list Reading :=
  map (fun mv => Build_Reading (Air.Date r) (Air.Station r) air (fst mv) (snd mv))
      [ (PM2_5, Air.PM2_5 r); (PM10, Air.PM10 r); (SO2, Air.SO2 r);
        (NO2, Air.NO2 r); (O3, Air.O3 r); (CO, Air.CO r) ].

Definition water_readings (r : Water.row) : list Reading :=
  map (fun mv => Build_Reading (Water.Date r) (Water.Water_Body r) water (fst mv) (snd mv))
      [ (pH, Water.pH r); (Dissolved_Oxygen, Water.Dissolved_Oxygen r);
        (BOD, Water.BOD r); (COD, Water.COD r);
        (Turbidity, Water.Turbidity r); (Heavy_Metals, Water.Heavy_Metals r) ].

Definition readings (s : Store) : list Reading :=
  flat_map air_readings (air_df s) ++ flat_map water_readings (water_df s).

(** ** Threshold registry *)

Inductive Severity := warning | critical.

Record ThresholdRule := {
  rule_domain : Domain;
  rule_metric : Metric;
  rule_min : option Q;
  rule_max : option Q;
  severity : Severity
}.

(** The script has no registry object: its thresholds are the literals of
    its comparisons.  Collected per column they are 35 for PM2.5 (lines
    177, 219, 303), 6.5 and 8.5 for pH (lines 183, 233, 234) and 20 for SO2
    (line 307).  The severity is the marker of the alert line of the
    column (lines 304, 306, 308). *)
Definition rule_for (d : Domain) (m : Metric) : option ThresholdRule :=
  match d, m with
  | air, PM2_5 => Some (Build_ThresholdRule air PM2_5 None (Some 35) critical)
  | water, pH => Some (Build_ThresholdRule water pH (Some 6.5) (Some 8.5) critical)
  | air, SO2 => Some (Build_ThresholdRule air SO2 None (Some 20) warning)
  | _, _ => None
  end.

(** ** Classifier *)

(** [Poor] stands for the cards and labels "POOR" and "Alert", [Good] for
    "GOOD" and "Normal", [Unclassified] for a column the script shows no
    status for. *)
Inductive Status := Good | Poor | Unclassified.

(** Lines 219-222: the card of one station, from its PM2.5 value. *)
Definition station_status (pm25 : Q) : Status :=
  if Py.gt pm25 35 then Poor else Good.

(** Line 183: the water pH status; the script computes it for the mean
    pH of the latest rows. *)
Definition ph_status (avg_ph : Q) : Status :=
  if Py.lt avg_ph 6.5 || Py.gt avg_ph 8.5 then Poor else Good.

(** Line 307: the row mask of the SO2 column. *)
Definition so2_elevated (so2 : Q) : bool := Py.gt so2 20.

(** The classifier of the registry: the status a reading has by the rule
    of its metric, with the comparisons the script makes on that column
    (lines 219, 183, 307).  The script itself computes a status from a
    single reading for PM2.5 only, see [script_status]. *)
Definition classify (r : Reading) : Status :=
  match domain r, metric_name r with
  | air, PM2_5 => station_status (value r)
  | water, pH => ph_status (value r)
  | air, SO2 => if so2_elevated (value r) then Poor else Good
  | _, _ => Unclassified
  end.

(** A reading breaches when it is classified [Poor]. *)
Definition breaches (r : Reading) : bool :=
  match classify r with Poor => true | _ => false end.

(** The status the script computes from one reading: the card of lines
    216-222, drawn from a PM2.5 value.  No line computes a status from a
    single value of another column: the pH status of line 183 is computed
    from the mean of the latest rows ([ph_status] of that mean), and SO2
    only enters the mask of line 307. *)
Definition script_status (r : Reading) : Status :=
  match domain r, metric_name r with
  | air, PM2_5 => station_status (value r)
  | _, _ => Unclassified
  end.

(** A value violates a rule when it is above the maximum or below the
    minimum the rule sets; it is within the rule otherwise. *)
Definition violates (rule : ThresholdRule) (v : Q) : Prop :=
  (exists mx, rule_max rule = Some mx /\ mx < v) \/
  (exists mn, rule_min rule = Some mn /\ v < mn).

Definition within (rule : ThresholdRule) (v : Q) : Prop :=
  (forall mx, rule_max rule = Some mx -> v <= mx) /\
  (forall mn, rule_min rule = Some mn -> mn <= v).

(** ** Compliance banding *)

Inductive ComplianceStatus := Compliant | PartiallyCompliant | NeedsImprovement.

(** Lines 291-296: the card chosen for one row of [compliance_df]; the
    safe card is [Compliant], the orange card [PartiallyCompliant], the
    warning card [NeedsImprovement]. *)
Definition compliance_band (rate : Q) : ComplianceStatus :=
  if Py.ge rate 90 then Compliant
  else if Py.ge rate 75 then PartiallyCompliant
  else NeedsImprovement.

(** Position of a band in NeedsImprovement < PartiallyCompliant < Compliant. *)
Definition band_rank (s : ComplianceStatus) : nat :=
  match s with
  | NeedsImprovement => 0
  | PartiallyCompliant => 1
  | Compliant => 2
  end.

(** Lines 268-274: [compliance_data], row by row. *)
Definition compliance_data : list (string * Q * ComplianceStatus) :=
  [ ("Air Quality Standards"%string, 85, PartiallyCompliant);
    ("Water Discharge Limits"%string, 90, Compliant);
    ("Noise Pollution"%string, 95, Compliant);
    ("Waste Management"%string, 80, NeedsImprovement);
    ("Biodiversity Protection"%string, 75, NeedsImprovement);
    ("Community Health"%string, 88, Compliant) ].

(** ** Alert generation (lines 301-314) *)

Definition msg_pm25 : string := "🚨 HIGH PM2.5 levels detected in Industrial Area".
Definition msg_ph : string := "🚨 LOW pH levels detected in Canal Industrial".
Definition msg_so2 : string := "⚠️ Elevated SO2 levels in multiple stations".
Definition msg_no_alerts : string := "✅ No critical environmental alerts at this time".

(** The row masks of lines 303, 305 and 307. *)
Definition mask_pm25 (r : Air.row) : bool := Py.gt (Air.PM2_5 r) 35.
Definition mask_ph (r : Water.row) : bool := Py.lt (Water.pH r) 6.5.
Definition mask_so2 (r : Air.row) : bool := Py.gt (Air.SO2 r) 20.

(** Lines 302-308: the list bound to [alerts] when the block ends.  Each
    [if] tests [len(df[mask]) > 0] and appends its message. *)
Definition evaluate (s : Store) : list string :=
  let alerts := [] in
  let alerts :=
    if (0 <? List.length (filter mask_pm25 (air_df s)))%nat
    then alerts ++ [msg_pm25] else alerts in
  let alerts :=
    if (0 <? List.length (filter mask_ph (water_df s)))%nat
    then alerts ++ [msg_ph] else alerts in
  let alerts :=
    if (0 <? List.length (filter mask_so2 (air_df s)))%nat
    then alerts ++ [msg_so2] else alerts in
  alerts.

(** The frame and column scanned by the [if] that appends a message. *)
Definition alert_source (a : string) : option (Domain * Metric) :=
  if String.eqb a msg_pm25 then Some (air, PM2_5)
  else if String.eqb a msg_ph then Some (water, pH)
  else if String.eqb a msg_so2 then Some (air, SO2)
  else None.

Definition alert_domain (a : string) : option Domain :=
  option_map fst (alert_source a).

Definition source_eqb (p : Domain * Metric) (o : option (Domain * Metric)) : bool :=
  match o with
  | Some q => Domain_eqb (fst p) (fst q) && Metric_eqb (snd p) (snd q)
  | None => false
  end.

(** Number of alerts of a list that come from a given frame and column,
    and from a given frame. *)
Definition count_for (p : Domain * Metric) (l : list string) : nat :=
  List.length (filter (fun a => source_eqb p (alert_source a)) l).

Definition count_domain (d : Domain) (l : list string) : nat :=
  List.length (filter (fun a => match alert_domain a with
                           | Some d' => Domain_eqb d d'
                           | None => false
                           end) l).

(** What the page shows: [st.error] and [st.success] elements. *)
Inductive Element :=
  | st_error (body : string)
  | st_success (body : string).

(** Lines 310-314. *)
Definition render_alerts (alerts : list string) : list Element :=
  match alerts with
  | [] => [st_success msg_no_alerts]
  | _ :: _ => map st_error alerts
  end.

(** ** Statements over a namespace

    A statement maps a namespace (the bindings of the names it uses) to a
    result and a namespace, or fails: reading an unbound name raises
    [NameError] in Python, [None] here. *)

Definition Stmt (S A : Type) := S -> option (A * S).

Definition ret {S A} (a : A) : Stmt S A := fun ns => Some (a, ns).

Definition bind {S A B} (c : Stmt S A) (k : A -> Stmt S B) : Stmt S B :=
  fun ns => match c ns with
            | Some (a, ns') => k a ns'
            | None => None
            end.

Notation "c1 ;; c2" := (bind c1 (fun _ => c2))
  (at level 61, right associativity).
Notation "x <- c1 ;; c2" := (bind c1 (fun x => c2))
  (at level 61, c1 at next level, right associativity).

(** [if b: c] *)
Definition when {S} (b : bool) (c : Stmt S unit) : Stmt S unit :=
  if b then c else ret tt.

(** [for x in xs: body x], the binding of [x] being the first statement
    of [body x]. *)
Fixpoint for_each {S A} (xs : list A) (body : A -> Stmt S unit) : Stmt S unit :=
  match xs with
  | [] => ret tt
  | x :: xs' => body x ;; for_each xs' body
  end.

(** *** The alert block as statements

    The only name the block assigns is [alerts]; its namespace is the
    binding of that name, [None] while it is unbound. *)

Definition Namespace := option (list string).

(** [alerts = l] *)
Definition assign_alerts (l : list string) : Stmt Namespace unit :=
  fun _ => Some (tt, Some l).

(** [alerts.append(m)] *)
Definition alerts_append (m : string) : Stmt Namespace unit :=
  fun ns => match ns with
            | Some l => Some (tt, Some (l ++ [m]))
            | None => None
            end.

(** Reading the name [alerts]. *)
Definition load_alerts : Stmt Namespace (list string) :=
  fun ns => match ns with
            | Some l => Some (l, ns)
            | None => None
            end.

(** Lines 302-314, returning the elements shown. *)
Definition alerts_block (s : Store) : Stmt Namespace (list Element) :=
  assign_alerts [] ;;
  when (0 <? List.length (filter mask_pm25 (air_df s)))%nat (alerts_append msg_pm25) ;;
  when (0 <? List.length (filter mask_ph (water_df s)))%nat (alerts_append msg_ph) ;;
  when (0 <? List.length (filter mask_so2 (air_df s)))%nat (alerts_append msg_so2) ;;
  alerts <- load_alerts ;;
  ret (render_alerts alerts).

(** ** [generate_environmental_data]: loops and loop variables

    The three loops of lines 75-151 as statements over the function's
    local names.  The sampled columns ([np.random.normal]) are left out:
    what is kept is which names each loop binds and reads, and the value
    of [base_count] behind every record appended to [species_data]. *)

(** Line 73. *)
Definition monitoring_stations : list string :=
  [ "North Zone"; "South Zone"; "Industrial Area"; "Residential Area";
    "Commercial District" ]%string.

(** The last element of [monitoring_stations]. *)
Definition commercial : string := "Commercial District".

(** Line 107. *)
Definition water_bodies : list string :=
  [ "River North"; "Lake Central"; "Canal Industrial"; "Reservoir South" ]%string.

(** Line 136. *)
Definition species_list : list string :=
  [ "Mangrove Trees"; "Fish Species"; "Bird Species"; "Mammal Species";
    "Insect Species" ]%string.

(** Line 69: every day from 2023-01-01 to 2024-01-01, both included. *)
Definition dates : list date := seq 0 366.

(** [l[::step]]: the elements at positions 0, step, 2*step, ... *)
Fixpoint every_from {A} (step skip : nat) (l : list A) : list A :=
  match l with
  | [] => []
  | x :: t =>
      match skip with
      | O => x :: every_from step (step - 1) t
      | S k => every_from step k t
      end
  end.

Definition slice_step {A} (step : nat) (l : list A) : list A :=
  every_from step 0 l.

(** [needle in hay] on [str]: [needle] occurs as a substring of [hay]. *)
Fixpoint str_in (needle hay : string) : bool :=
  if String.prefix needle hay then true
  else match hay with
       | EmptyString => false
       | String _ t => str_in needle t
       end.

(** One iteration of the biodiversity loop body: the date and species of
    the record appended at lines 146-151 and the [base_count] its count is
    drawn around. *)
Record BioRecord := {
  bio_Date : date;
  bio_Species : string;
  bio_base_count : Z
}.

(** The local names, [None] while unbound. *)
Record Locals := {
  date_ : option date;
  station : option string;
  water_body : option string;
  species : option string;
  base_count : option Z;
  species_data : list BioRecord
}.

Definition no_locals : Locals :=
  Build_Locals None None None None None [].

Definition store_date (d : date) : Stmt Locals unit :=
  fun l => Some (tt, Build_Locals (Some d) (station l) (water_body l)
                                  (species l) (base_count l) (species_data l)).

Definition store_station (s : string) : Stmt Locals unit :=
  fun l => Some (tt, Build_Locals (date_ l) (Some s) (water_body l)
                                  (species l) (base_count l) (species_data l)).

Definition store_water_body (w : string) : Stmt Locals unit :=
  fun l => Some (tt, Build_Locals (date_ l) (station l) (Some w)
                                  (species l) (base_count l) (species_data l)).

Definition store_species (sp : string) : Stmt Locals unit :=
  fun l => Some (tt, Build_Locals (date_ l) (station l) (water_body l)
                                  (Some sp) (base_count l) (species_data l)).

Definition store_base_count (n : Z) : Stmt Locals unit :=
  fun l => Some (tt, Build_Locals (date_ l) (station l) (water_body l)
                                  (species l) (Some n) (species_data l)).

Definition store_species_data (d : list BioRecord) : Stmt Locals unit :=
  fun l => Some (tt, Build_Locals (date_ l) (station l) (water_body l)
                                  (species l) (base_count l) d).

(** Reading a local name. *)
Definition load {A} (name : Locals -> option A) : Stmt Locals A :=
  fun l => match name l with
           | Some v => Some (v, l)
           | None => None
           end.

(** [species_data.append(r)] *)
Definition species_data_append (r : BioRecord) : Stmt Locals unit :=
  fun l => Some (tt, Build_Locals (date_ l) (station l) (water_body l)
                                  (species l) (base_count l)
                                  (species_data l ++ [r])).

(** Lines 76-102, for one date: the inner loop binds [station]; its body
    reads [date] and [station] and appends to [air_data], and assigns no
    name the later loops read. *)
Definition air_day (d : date) : Stmt Locals unit :=
  store_date d ;;
  for_each monitoring_stations (fun s =>
    store_station s ;;
    _ <- load date_ ;;
    _ <- load station ;;
    ret tt).

(** Lines 75-102. *)
Definition air_loop : Stmt Locals unit :=
  for_each dates air_day.

(** Lines 111-130, for one date: the inner loop binds [water_body]. *)
Definition water_day (d : date) : Stmt Locals unit :=
  store_date d ;;
  for_each water_bodies (fun w =>
    store_water_body w ;;
    _ <- load date_ ;;
    _ <- load water_body ;;
    ret tt).

(** Lines 110-130, with line 110 read as [for date in dates[::7]:]
    followed by a comment.  As shipped the line has no comment marker and
    is rejected, see [line_110] and [run_generate]. *)
Definition water_loop : Stmt Locals unit :=
  for_each (slice_step 7 dates) water_day.

(** Lines 141-144. *)
Definition choose_base_count : Stmt Locals unit :=
  s <- load station ;;
  if str_in "Industrial" s then store_base_count 50 else store_base_count 120.

(** Lines 139-151, for one species: the inner loop binds [species]. *)
Definition biodiversity_body (sp : string) : Stmt Locals unit :=
  store_species sp ;;
  choose_base_count ;;
  d <- load date_ ;;
  sp' <- load species ;;
  n <- load base_count ;;
  species_data_append (Build_BioRecord d sp' n).

(** Lines 139-151, for one date. *)
Definition biodiversity_day (d : date) : Stmt Locals unit :=
  store_date d ;;
  for_each species_list biodiversity_body.

(** Lines 135-151, with line 138 read as [for date in dates[::30]:]
    followed by a comment.  As shipped the line has no comment marker and
    is rejected, see [line_138] and [run_generate]. *)
Definition biodiversity_loop : Stmt Locals unit :=
  store_species_data [] ;;
  for_each (slice_step 30 dates) biodiversity_day.

(** The loops in the order of the function body, for the body with the
    comment marker put in on lines 110 and 138.  The body as shipped does
    not parse: [run_generate] is the function with its two headers as
    they are given. *)
Definition generate_environmental_data : Stmt Locals unit :=
  air_loop ;; water_loop ;; biodiversity_loop.

(** ** Lines 110 and 138 as shipped *)

Definition line_110 : string := "    for date in dates[::7]:  Weekly data".
Definition line_138 : string := "    for date in dates[::30]:  Monthly data".

(** The same lines with a comment marker before the trailing words. *)
Definition line_110_marked : string :=
  "    for date in dates[::7]:  # Weekly data".
Definition line_138_marked : string :=
  "    for date in dates[::30]:  # Monthly data".

(** The text after the colon that ends the header of a compound
    statement: the first colon outside brackets. *)
Fixpoint after_header_colon (depth : nat) (s : string) : option string :=
  match s with
  | EmptyString => None
  | String c t =>
      if Ascii.eqb c "[" || Ascii.eqb c "(" || Ascii.eqb c "{"
      then after_header_colon (S depth) t
      else if Ascii.eqb c "]" || Ascii.eqb c ")" || Ascii.eqb c "}"
      then after_header_colon (pred depth) t
      else if Ascii.eqb c ":" && (depth =? 0)%nat then Some t
      else after_header_colon depth t
  end.

(** The text before the first comment marker. *)
Fixpoint before_comment (s : string) : string :=
  match s with
  | EmptyString => EmptyString
  | String c t => if Ascii.eqb c "#" then EmptyString
                  else String c (before_comment t)
  end.

(** The words of a text, split at spaces. *)
Fixpoint words_from (cur s : string) : list string :=
  match s with
  | EmptyString => match cur with EmptyString => [] | _ => [cur] end
  | String c t =>
      if Ascii.eqb c " "
      then match cur with
           | EmptyString => words_from EmptyString t
           | _ => cur :: words_from EmptyString t
           end
      else words_from (cur ++ String c EmptyString) t
  end.

Definition is_letter (c : ascii) : bool :=
  let n := nat_of_ascii c in
  ((65 <=? n) && (n <=? 90) || (97 <=? n) && (n <=? 122) || (n =? 95))%nat.

Definition is_digit (c : ascii) : bool :=
  let n := nat_of_ascii c in ((48 <=? n) && (n <=? 57))%nat.

Fixpoint name_chars (s : string) : bool :=
  match s with
  | EmptyString => true
  | String c t => (is_letter c || is_digit c) && name_chars t
  end.

(** A NAME token. *)
Definition is_name (w : string) : bool :=
  match w with
  | EmptyString => false
  | String c t => is_letter c && name_chars t
  end.

(** The keywords of Python, hard and soft. *)
Definition keywords : list string :=
  [ "False"; "None"; "True"; "and"; "as"; "assert"; "async"; "await";
    "break"; "class"; "continue"; "def"; "del"; "elif"; "else"; "except";
    "finally"; "for"; "from"; "global"; "if"; "import"; "in"; "is";
    "lambda"; "nonlocal"; "not"; "or"; "pass"; "raise"; "return"; "try";
    "while"; "with"; "yield"; "match"; "case"; "type"; "_" ]%string.

(** No statement starts with a name that is not a keyword and goes on
    with another name. *)
Definition adjacent_names (ws : list string) : bool :=
  match ws with
  | w1 :: w2 :: _ =>
      is_name w1 && is_name w2 && negb (existsb (String.eqb w1) keywords)
  | _ => false
  end.

(** Whether the parser accepts what follows the header of a loop on its
    line: nothing, a comment, or the start of a statement. *)
Definition header_accepted (line : string) : bool :=
  match after_header_colon 0 line with
  | Some rest => negb (adjacent_names (words_from EmptyString (before_comment rest)))
  | None => false
  end.

(** How a call of the function ends. *)
Inductive Outcome (A : Type) :=
  | Returned (a : A)
  | SyntaxError (lineno : nat)
  | NameError.

Arguments Returned {A} a.
Arguments SyntaxError {A} lineno.
Arguments NameError {A}.

(** The first line the parser rejects. *)
Definition first_rejected (lines : list (nat * string)) : option nat :=
  option_map fst (find (fun l => negb (header_accepted (snd l))) lines).

(** [generate_environmental_data()] for given texts of lines 110 and 138:
    a rejected header ends everything before any statement runs;
    otherwise the loops run from no bound name. *)
Definition run_generate (l110 l138 : string) : Outcome Locals :=
  match first_rejected [ (110%nat, l110); (138%nat, l138) ] with
  | Some n => SyntaxError n
  | None =>
      match generate_environmental_data no_locals with
      | Some (_, l) => Returned l
      | None => NameError
      end
  end.

(** ** Stores used as examples *)

(** One water row with a pH above the upper bound, nothing else out of
    range. *)
Definition store_high_ph : Store :=
  {| air_df := [ Air.mk 0%nat "North Zone" 20 40 10 18 35 1.2 ];
     water_df := [ Water.mk 0%nat "River North" 9 6 3 6 15 0.05 ] |}.

(** A low pH in the water frame and an SO2 above 20 in the air frame. *)
Definition store_low_ph_so2 : Store :=
  {| air_df := [ Air.mk 0%nat "South Zone" 20 40 25 18 35 1.2 ];
     water_df := [ Water.mk 0%nat "Canal Industrial" 6 6 8 15 15 0.05 ] |}.

(** Two stations on one date, PM2.5 of 40 and of 20. *)
Definition store_two_sites : Store :=
  {| air_df := [ Air.mk 0%nat "North Zone" 40 80 18 25 35 1.2;
                 Air.mk 0%nat "Residential Area" 20 40 12 18 35 1.2 ];
     water_df := [] |}.

(** Two stations on one date, PM2.5 of 40 and of 20, the first with an
    SO2 of 25. *)
Definition store_two_sites_so2 : Store :=
  {| air_df := [ Air.mk 0%nat "Industrial Area" 40 80 25 40 35 1.2;
                 Air.mk 0%nat "Residential Area" 20 40 12 18 35 1.2 ];
     water_df := [ Water.mk 0%nat "River North" 7 6 3 6 15 0.05 ] |}.

(** Three stations above the PM2.5 bound on several dates. *)
Definition store_many_breaches : Store :=
  {| air_df := [ Air.mk 0%nat "North Zone" 40 80 18 25 35 1.2;
                 Air.mk 0%nat "South Zone" 51 90 19 25 35 1.2;
                 Air.mk 1%nat "North Zone" 36 80 18 25 35 1.2 ];
     water_df := [ Water.mk 0%nat "River North" 7.1 6 3 6 15 0.05 ] |}.

(** Nothing out of range. *)
Definition store_all_good : Store :=
  {| air_df := [ Air.mk 0%nat "North Zone" 35 70 20 25 35 1.2 ];
     water_df := [ Water.mk 0%nat "River North" 6.5 6 3 6 15 0.05;
                   Water.mk 7%nat "Lake Central" 8.5 6 3 6 15 0.05 ] |}.

(** The frames built from no rows; as built by the script such frames
    have no columns. *)
Definition empty_store : Store := {| air_df := []; water_df := [] |}.

(** ** The column lookups of the alert block *)

Inductive Exception := KeyError (key : string).

(** [df[key]] on a frame built by [pd.DataFrame(rows)]: the column is
    there when the frame was built from at least one row. *)
Definition getitem {A} (df : list A) (key : string) : Exception + list A :=
  match df with
  | [] => inl (KeyError key)
  | _ :: _ => inr df
  end.

(** Lines 302-314 with the lookups of lines 303, 305 and 307: the
    elements shown, or the exception of the first lookup that fails. *)
Definition alerts_page (s : Store) : Exception + list Element :=
  match getitem (air_df s) "PM2.5" with
  | inl e => inl e
  | inr _ =>
      match getitem (water_df s) "pH" with
      | inl e => inl e
      | inr _ =>
          match getitem (air_df s) "SO2" with
          | inl e => inl e
          | inr _ => inr (render_alerts (evaluate s))
          end
      end
  end.

(** The same measurements under other site names and dates. *)
Definition relabel (f : string -> string) (g : date -> date) (s : Store) : Store :=
  {| air_df :=
       map (fun r => Air.mk (g (Air.Date r)) (f (Air.Station r))
                            (Air.PM2_5 r) (Air.PM10 r) (Air.SO2 r)
                            (Air.NO2 r) (Air.O3 r) (Air.CO r))
           (air_df s);
     water_df :=
       map (fun r => Water.mk (g (Water.Date r)) (f (Water.Water_Body r))
                              (Water.pH r) (Water.Dissolved_Oxygen r)
                              (Water.BOD r) (Water.COD r)
                              (Water.Turbidity r) (Water.Heavy_Metals r))
           (water_df s) |}.

(** The message list of an [if] of the block: its message when the test
    holds. *)
Definition fired (b : bool) (m : string) : list string :=
  if b then [m] else [].

(** The records one date of the biodiversity loop appends when every
    [base_count] is [n]. *)
Definition day_records (n : Z) (d : date) : list BioRecord :=
  map (fun sp => Build_BioRecord d sp n) species_list.

(** ** Executive summary and station cards (lines 174-222) *)

(** [column.max()] of a date column; an empty column has no maximum. *)
Definition max_date (l : list date) : option date :=
  match l with
  | [] => None
  | d :: t => Some (fold_left Nat.max t d)
  end.

(** Lines 175 and 213: [air_df[air_df['Date'] == air_df['Date'].max()]]. *)
Definition latest_air (s : Store) : list Air.row :=
  match max_date (map Air.Date (air_df s)) with
  | Some m => filter (fun r => (Air.Date r =? m)%nat) (air_df s)
  | None => []
  end.

(** Line 181: [water_df[water_df['Date'] == water_df['Date'].max()]]. *)
Definition latest_water (s : Store) : list Water.row :=
  match max_date (map Water.Date (water_df s)) with
  | Some m => filter (fun r => (Water.Date r =? m)%nat) (water_df s)
  | None => []
  end.

(** Line 195: the number shown as "Active Alerts". *)
Definition alerts_count (s : Store) : nat :=
  (List.length (filter mask_pm25 (air_df s)) +
   List.length (filter mask_ph (water_df s)))%nat.

(** [Series.unique()]: the values in the order of their first
    occurrence. *)
Fixpoint unique (l : list string) : list string :=
  match l with
  | [] => []
  | x :: t => x :: filter (fun y => negb (String.eqb y x)) (unique t)
  end.

(** [groupby] iterates its groups in ascending key order; the keys are
    strings, compared character by character. *)
Fixpoint insert_key (k : string) (l : list string) : list string :=
  match l with
  | [] => [k]
  | h :: t => if String.leb k h then k :: l else h :: insert_key k t
  end.

Fixpoint sort_keys (l : list string) : list string :=
  match l with
  | [] => []
  | h :: t => insert_key h (sort_keys t)
  end.

(** [df.groupby('Station')]: each key with its rows, in frame order. *)
Definition groupby_Station (df : list Air.row) : list (string * list Air.row) :=
  map (fun k => (k, filter (fun r => String.eqb (Air.Station r) k) df))
      (sort_keys (unique (map Air.Station df))).

(** [st.columns(n)]: [n] columns, numbered from 0; Streamlit rejects a
    column count of 0. *)
Definition st_columns (n : nat) : option (list nat) :=
  if (n =? 0)%nat then None else Some (seq 0 n).

(** One card of lines 219-222: the column it is drawn in, the station,
    the value shown and the status. *)
Record Card := {
  card_column : nat;
  card_station : string;
  card_pm25 : Q;
  card_status : Status
}.

(** Lines 216-222: the loop over [enumerate(groupby)].  [cols[idx]] and
    [data['PM2.5'].iloc[0]] raise [IndexError] out of range, [None]
    here. *)
Fixpoint render_cards (cols : list nat) (idx : nat)
    (groups : list (string * list Air.row)) : option (list Card) :=
  match groups with
  | [] => Some []
  | (station, data) :: rest =>
      match nth_error cols idx, nth_error data 0 with
      | Some col, Some row =>
          let pm25 := Air.PM2_5 row in
          option_map (cons (Build_Card col station pm25 (station_status pm25)))
                     (render_cards cols (S idx) rest)
      | _, _ => None
      end
  end.

(** Lines 213-222. *)
Definition station_cards (s : Store) : option (list Card) :=
  let latest_air_data := latest_air s in
  match st_columns (List.length (unique (map Air.Station latest_air_data))) with
  | Some cols => render_cards cols 0 (groupby_Station latest_air_data)
  | None => None
  end.

(** The bodies of the [st.error] elements of a page, in order. *)
Definition error_bodies (page : list Element) : list string :=
  flat_map (fun e => match e with
                     | st_error b => [b]
                     | st_success _ => []
                     end) page.

(** One row of [biodiversity_df]: the dict appended at lines 146-151. *)
Module Bio.
Record row := mk {
  Date : date;
  Species : string;
  Count : Z;
  Health_Index : Q
}.
End Bio.

(** The order of the group keys. *)
Definition key_le (a b : string) : Prop := String.leb a b = true.

(** What a card holds of the group it is drawn for. *)
Definition card_of_group (c : Card) (g : string * list Air.row) : Prop :=
  card_station c = fst g /\
  exists row rest, snd g = row :: rest /\
                   card_pm25 c = Air.PM2_5 row /\
                   card_status c = station_status (Air.PM2_5 row).

(** The row a card is drawn from: the first row of the latest date that
    has the card's station. *)
Definition card_first_row (l : list Air.row) (c : Card) : Prop :=
  exists pre row post,
    l = pre ++ row :: post /\
    Air.Station row = card_station c /\
    (forall r, In r pre -> Air.Station r <> card_station c) /\
    card_pm25 c = Air.PM2_5 row /\
    card_status c = station_status (Air.PM2_5 row).

(** ** The loops of [generate_environmental_data] with their samples

    The air loop (lines 72-104) and the bodies of the two later loops
    (lines 111-130 and 139-151), now with the rows they build.  The random
    source is a parameter: [normal loc scale k] is the value returned by
    the [k]-th call of [np.random.normal], made with the arguments [loc]
    and [scale].  Nothing is assumed of it, so what is proved holds for
    every sequence of draws.  The seasonal factor of line 78 (a sine) is a
    parameter as well; it only enters the [loc] of a draw.  The headers of
    lines 110 and 138 are not part of these blocks. *)

(** [max(a, b)] of two numbers: [b] when it is greater, [a] otherwise. *)
Definition py_max (a b : Q) : Q := if Py.gt b a then b else a.

(** [int(x)]: truncation toward zero. *)
Definition py_int (x : Q) : Z := Z.quot (Qnum x) (Z.pos (Qden x)).

(** [date.month] of a date of [dates]: 2023 month by month, then January
    2024. *)
Definition month (d : date) : Z :=
  if (d <? 31)%nat then 1
  else if (d <? 59)%nat then 2
  else if (d <? 90)%nat then 3
  else if (d <? 120)%nat then 4
  else if (d <? 151)%nat then 5
  else if (d <? 181)%nat then 6
  else if (d <? 212)%nat then 7
  else if (d <? 243)%nat then 8
  else if (d <? 273)%nat then 9
  else if (d <? 304)%nat then 10
  else if (d <? 334)%nat then 11
  else if (d <? 365)%nat then 12
  else 1.

Module Gen.
Section Sampling.

Variable normal : Q -> Q -> nat -> Q.
Variable seasonal_factor : date -> Q.

(** The state the blocks work on: the number of draws made so far, the
    binding of the name [station], and the three lists. *)
Record State := mkState {
  calls : nat;
  station : option string;
  air_data : list Air.row;
  water_data : list Water.row;
  species_data : list Bio.row
}.

(** [np.random.normal(loc, scale)] *)
Definition random_normal (loc scale : Q) : Stmt State Q :=
  fun st => Some (normal loc scale (calls st),
                  mkState (S (calls st)) (station st) (air_data st)
                          (water_data st) (species_data st)).

Definition store_station (s : string) : Stmt State unit :=
  fun st => Some (tt, mkState (calls st) (Some s) (air_data st)
                              (water_data st) (species_data st)).

Definition load_station : Stmt State string :=
  fun st => match station st with
            | Some s => Some (s, st)
            | None => None
            end.

Definition assign_air_data (l : list Air.row) : Stmt State unit :=
  fun st => Some (tt, mkState (calls st) (station st) l
                              (water_data st) (species_data st)).

Definition air_data_append (r : Air.row) : Stmt State unit :=
  fun st => Some (tt, mkState (calls st) (station st) (air_data st ++ [r])
                              (water_data st) (species_data st)).

Definition water_data_append (r : Water.row) : Stmt State unit :=
  fun st => Some (tt, mkState (calls st) (station st) (air_data st)
                              (water_data st ++ [r]) (species_data st)).

Definition species_data_append (r : Bio.row) : Stmt State unit :=
  fun st => Some (tt, mkState (calls st) (station st) (air_data st)
                              (water_data st) (species_data st ++ [r])).

(** Lines 80-91. *)
Definition base_levels (station : string) : Q * Q * Q :=
  if String.eqb station "Industrial Area" then (45, 25, 40)
  else if String.eqb station "Residential Area" then (25, 12, 18)
  else (35, 18, 25).

(** Lines 76-102, one iteration. *)
Definition air_body (d : date) (s : string) : Stmt State unit :=
  store_station s ;;
  station <- load_station ;;
  let sf := seasonal_factor d in
  let '(base_pm25, base_so2, base_no2) := base_levels station in
  pm25 <- random_normal (base_pm25 * sf) 8 ;;
  pm10 <- random_normal (base_pm25 * 2 * sf) 15 ;;
  so2 <- random_normal (base_so2 * sf) 4 ;;
  no2 <- random_normal (base_no2 * sf) 6 ;;
  o3 <- random_normal (35 * sf) 10 ;;
  co <- random_normal (1.2 * sf) 0.3 ;;
  air_data_append
    (Air.mk d station (py_max 10 pm25) (py_max 20 pm10) (py_max 5 so2)
            (py_max 8 no2) (py_max 20 o3) (py_max 0.5 co)).

(** Lines 112-119. *)
Definition water_base_levels (water_body : string) : Q * Q * Q :=
  if str_in "Industrial" water_body then (6.2, 8, 15) else (7.1, 3, 6).

(** Lines 111-130, one iteration. *)
Definition water_body (d : date) (w : string) : Stmt State unit :=
  let '(base_ph, base_bod, base_cod) := water_base_levels w in
  ph <- random_normal base_ph 0.3 ;;
  dox <- random_normal 6 1.5 ;;
  bod <- random_normal base_bod 2 ;;
  cod <- random_normal base_cod 3 ;;
  turbidity <- random_normal 15 8 ;;
  heavy_metals <- random_normal 0.05 0.02 ;;
  water_data_append
    (Water.mk d w ph (py_max 2 dox) (py_max 1 bod) (py_max 3 cod)
              turbidity heavy_metals).

(** Lines 139-151, one iteration.  [station] is read, not bound. *)
Definition species_body (d : date) (sp : string) : Stmt State unit :=
  let trend := 1 + 0.1 * inject_Z (month d - 6) / 6 in
  station <- load_station ;;
  let base_count := if str_in "Industrial" station then 50 else 120 in
  count <- random_normal (base_count * trend) 20 ;;
  health_index <- random_normal 75 15 ;;
  species_data_append
    (Bio.mk d sp (Z.max 10 (py_int count)) health_index).

(** Lines 72-104: the rows [air_df] is built from. *)
Definition air_block : Stmt State (list Air.row) :=
  assign_air_data [] ;;
  for_each dates (fun d => for_each monitoring_stations (air_body d)) ;;
  fun st => Some (air_data st, st).

End Sampling.
End Gen.

(** The floors the [max] of lines 96-101 and 125-127 put under the
    sampled columns. *)
Definition air_floor (r : Air.row) : Prop :=
  10 <= Air.PM2_5 r /\ 20 <= Air.PM10 r /\ 5 <= Air.SO2 r /\
  8 <= Air.NO2 r /\ 20 <= Air.O3 r /\ 0.5 <= Air.CO r.

Definition water_floor (r : Water.row) : Prop :=
  2 <= Water.Dissolved_Oxygen r /\ 1 <= Water.BOD r /\ 3 <= Water.COD r.

(** The (date, site) pairs of a nested loop, in iteration order. *)
Definition loop_keys (ds : list date) (sites : list string) : list (date * string) :=
  flat_map (fun d => map (pair d) sites) ds.

(** The date and site of a row. *)
Definition air_key (r : Air.row) : date * string := (Air.Date r, Air.Station r).
Definition water_key (r : Water.row) : date * string :=
  (Water.Date r, Water.Water_Body r).
Definition bio_key (r : Bio.row) : date * string := (Bio.Date r, Bio.Species r).

(** The count of a biodiversity row is the clamped, truncated value of a
    draw around [n] times the trend of the row's month (lines 140, 149). *)
Definition drawn_around (normal : Q -> Q -> nat -> Q) (n : Q) (r : Bio.row) : Prop :=
  exists k,
    Bio.Count r =
      Z.max 10 (py_int (normal (n * (1 + 0.1 * inject_Z (month (Bio.Date r) - 6) / 6))
                               20 k)).

(** * Properties *)

(** ** Comparisons *)

Lemma Py_gt_iff a b : Py.gt a b = true <-> b < a.
Proof.
  unfold Py.gt. rewrite negb_true_iff. split.
  - intro H. apply Qnot_le_lt. intro Hle.
    apply Qle_bool_iff in Hle. congruence.
  - intro H. destruct (Qle_bool a b) eqn:E; [|reflexivity].
    apply Qle_bool_iff in E. exfalso. exact (Qlt_not_le _ _ H E).
Qed.

Lemma Py_gt_false_iff a b : Py.gt a b = false <-> a <= b.
Proof. unfold Py.gt. rewrite negb_false_iff. apply Qle_bool_iff. Qed.

Lemma Py_lt_iff a b : Py.lt a b = true <-> a < b.
Proof. exact (Py_gt_iff b a). Qed.

Lemma Py_lt_false_iff a b : Py.lt a b = false <-> b <= a.
Proof. exact (Py_gt_false_iff b a). Qed.

Lemma Py_ge_iff a b : Py.ge a b = true <-> b <= a.
Proof. unfold Py.ge. apply Qle_bool_iff. Qed.

Lemma Py_ge_false_iff a b : Py.ge a b = false <-> a < b.
Proof.
  unfold Py.ge. split.
  - intro H. apply Qnot_le_lt. intro Hle.
    apply Qle_bool_iff in Hle. congruence.
  - intro H. destruct (Qle_bool b a) eqn:E; [|reflexivity].
    apply Qle_bool_iff in E. exfalso. exact (Qlt_not_le _ _ H E).
Qed.

Lemma Domain_eqb_eq a b : Domain_eqb a b = true <-> a = b.
Proof. destruct a, b; simpl; split; congruence. Qed.

Lemma Metric_eqb_eq a b : Metric_eqb a b = true <-> a = b.
Proof. destruct a, b; simpl; split; congruence. Qed.

(** ** Classifier *)

(** The three status computations, each against its own bounds. *)

Lemma station_status_Poor v : station_status v = Poor <-> 35 < v.
Proof.
  unfold station_status. destruct (Py.gt v 35) eqn:E.
  - apply Py_gt_iff in E. tauto.
  - apply Py_gt_false_iff in E. split; [discriminate|].
    intro H. exfalso. exact (Qlt_not_le _ _ H E).
Qed.

Lemma station_status_Good v : station_status v = Good <-> v <= 35.
Proof.
  unfold station_status. destruct (Py.gt v 35) eqn:E.
  - apply Py_gt_iff in E. split; [discriminate|].
    intro H. exfalso. exact (Qlt_not_le _ _ E H).
  - apply Py_gt_false_iff in E. tauto.
Qed.

Lemma so2_elevated_iff v : so2_elevated v = true <-> 20 < v.
Proof. apply Py_gt_iff. Qed.

Lemma so2_elevated_false_iff v : so2_elevated v = false <-> v <= 20.
Proof. apply Py_gt_false_iff. Qed.

Lemma ph_status_Poor v : ph_status v = Poor <-> 8.5 < v \/ v < 6.5.
Proof.
  unfold ph_status.
  destruct (Py.lt v 6.5) eqn:L; destruct (Py.gt v 8.5) eqn:G; simpl.
  - apply Py_lt_iff in L. tauto.
  - apply Py_lt_iff in L. tauto.
  - apply Py_gt_iff in G. tauto.
  - apply Py_lt_false_iff in L. apply Py_gt_false_iff in G.
    split; [discriminate|]. intros [H|H]; exfalso.
    + exact (Qlt_not_le _ _ H G).
    + exact (Qlt_not_le _ _ H L).
Qed.

Lemma ph_status_Good v : ph_status v = Good <-> v <= 8.5 /\ 6.5 <= v.
Proof.
  unfold ph_status.
  destruct (Py.lt v 6.5) eqn:L; destruct (Py.gt v 8.5) eqn:G; simpl.
  - apply Py_lt_iff in L. split; [discriminate|].
    intros [_ H]. exfalso. exact (Qlt_not_le _ _ L H).
  - apply Py_lt_iff in L. split; [discriminate|].
    intros [_ H]. exfalso. exact (Qlt_not_le _ _ L H).
  - apply Py_gt_iff in G. split; [discriminate|].
    intros [H _]. exfalso. exact (Qlt_not_le _ _ G H).
  - apply Py_lt_false_iff in L. apply Py_gt_false_iff in G. tauto.
Qed.

Lemma station_status_classified v : station_status v <> Unclassified.
Proof. unfold station_status. destruct (Py.gt v 35); discriminate. Qed.

Lemma ph_status_classified v : ph_status v <> Unclassified.
Proof.
  unfold ph_status. destruct (Py.lt v 6.5 || Py.gt v 8.5); discriminate.
Qed.

Lemma violates_max_only d m mx sev v :
  violates (Build_ThresholdRule d m None (Some mx) sev) v <-> mx < v.
Proof.
  unfold violates; simpl. split.
  - intros [[x [E H]] | [x [E _]]]; [|discriminate].
    inversion E; subst. exact H.
  - intro H. left. exists mx. split; [reflexivity|exact H].
Qed.

Lemma within_max_only d m mx sev v :
  within (Build_ThresholdRule d m None (Some mx) sev) v <-> v <= mx.
Proof.
  unfold within; simpl. split.
  - intros [H _]. apply H. reflexivity.
  - intro H. split.
    + intros x E. inversion E; subst. exact H.
    + intros x E. discriminate.
Qed.

Lemma violates_min_max d m mn mx sev v :
  violates (Build_ThresholdRule d m (Some mn) (Some mx) sev) v <->
  mx < v \/ v < mn.
Proof.
  unfold violates; simpl. split.
  - intros [[x [E H]] | [x [E H]]]; inversion E; subst; tauto.
  - intros [H|H]; [left; exists mx | right; exists mn]; split;
      solve [reflexivity | exact H].
Qed.

Lemma within_min_max d m mn mx sev v :
  within (Build_ThresholdRule d m (Some mn) (Some mx) sev) v <->
  v <= mx /\ mn <= v.
Proof.
  unfold within; simpl. split.
  - intros [H1 H2]. split; [apply H1 | apply H2]; reflexivity.
  - intros [H1 H2]. split; intros x E; inversion E; subst; assumption.
Qed.

Ltac no_rule :=
  split; [| split];
  [ split; [discriminate | intros [? [? _]]; discriminate]
  | split; [discriminate | intros [? [? _]]; discriminate]
  | split; reflexivity ].

Ltac with_rule Hpoor Hgood Hcls Hv Hw :=
  let H := fresh "H" in
  let E := fresh "E" in
  let rule := fresh "rule" in
  split; [| split];
  [ rewrite Hpoor; split;
    [ intro H; eexists; split; [reflexivity | apply Hv; exact H]
    | intros [rule [E H]]; inversion E; subst; apply Hv in H; exact H ]
  | rewrite Hgood; split;
    [ intro H; eexists; split; [reflexivity | apply Hw; exact H]
    | intros [rule [E H]]; inversion E; subst; apply Hw in H; exact H ]
  | split; [intro H; exfalso; exact (Hcls H) | discriminate] ].

(** The classifier of the registry: [Poor] exactly when the rule of the
    reading's metric exists and the value is above the rule's maximum or
    below its minimum, [Good] exactly when the rule exists and neither
    bound is violated, [Unclassified] exactly when no rule matches. *)
Lemma classify_threshold_rule (r : Reading) :
  (classify r = Poor <->
     exists rule, rule_for (domain r) (metric_name r) = Some rule /\
                  violates rule (value r))
  /\ (classify r = Good <->
     exists rule, rule_for (domain r) (metric_name r) = Some rule /\
                  within rule (value r))
  /\ (classify r = Unclassified <->
     rule_for (domain r) (metric_name r) = None).
Proof.
  destruct r as [t s d m v]. unfold classify. simpl.
  destruct d, m; simpl; try no_rule.
  - with_rule (station_status_Poor v) (station_status_Good v)
              (station_status_classified v)
              (violates_max_only air PM2_5 35 critical v)
              (within_max_only air PM2_5 35 critical v).
  - assert (HP : (if so2_elevated v then Poor else Good) = Poor <-> 20 < v).
    { destruct (so2_elevated v) eqn:E.
      - apply so2_elevated_iff in E. tauto.
      - apply so2_elevated_false_iff in E. split; [discriminate|].
        intro H. exfalso. exact (Qlt_not_le _ _ H E). }
    assert (HG : (if so2_elevated v then Poor else Good) = Good <-> v <= 20).
    { destruct (so2_elevated v) eqn:E.
      - apply so2_elevated_iff in E. split; [discriminate|].
        intro H. exfalso. exact (Qlt_not_le _ _ E H).
      - apply so2_elevated_false_iff in E. tauto. }
    assert (HC : (if so2_elevated v then Poor else Good) <> Unclassified).
    { destruct (so2_elevated v); discriminate. }
    with_rule HP HG HC
              (violates_max_only air SO2 20 warning v)
              (within_max_only air SO2 20 warning v).
  - with_rule (ph_status_Poor v) (ph_status_Good v)
              (ph_status_classified v)
              (violates_min_max water pH 6.5 8.5 critical v)
              (within_min_max water pH 6.5 8.5 critical v).
Qed.

(** A value exactly on a bound is [Good]. *)
Example classify_on_bound :
  classify (Build_Reading 0%nat "North Zone" air PM2_5 35) = Good /\
  classify (Build_Reading 0%nat "River North" water pH 6.5) = Good /\
  classify (Build_Reading 0%nat "River North" water pH 8.5) = Good /\
  classify (Build_Reading 0%nat "North Zone" air SO2 20) = Good.
Proof. repeat split; reflexivity. Qed.



(** ** Compliance banding *)

Lemma compliance_band_cases (r : Q) :
  (90 <= r /\ compliance_band r = Compliant) \/
  (75 <= r /\ r < 90 /\ compliance_band r = PartiallyCompliant) \/
  (r < 75 /\ compliance_band r = NeedsImprovement).
Proof.
  unfold compliance_band.
  destruct (Py.ge r 90) eqn:E90.
  - left. apply Py_ge_iff in E90. tauto.
  - apply Py_ge_false_iff in E90.
    destruct (Py.ge r 75) eqn:E75.
    + right; left. apply Py_ge_iff in E75. tauto.
    + right; right. apply Py_ge_false_iff in E75. tauto.
Qed.

(** C2.  The banding of a compliance rate: [Compliant] exactly for rates
    of at least 90, the middle tier exactly for rates of at least 75 and
    below 90, [NeedsImprovement] exactly for rates below 75.  It holds for
    every rate, so for every rate of [0,100]; a rate of exactly 90 is
    [Compliant] and a rate of exactly 75 is in the middle tier. *)
Theorem compliance_band_thresholds (r : Q) :
  (compliance_band r = Compliant <-> 90 <= r)
  /\ (compliance_band r = PartiallyCompliant <-> 75 <= r /\ r < 90)
  /\ (compliance_band r = NeedsImprovement <-> r < 75)
  /\ compliance_band 90 = Compliant
  /\ compliance_band 75 = PartiallyCompliant.
Proof.
  assert (H7590 : 75 < 90) by reflexivity.
  destruct (compliance_band_cases r) as [[H E] | [[H1 [H2 E]] | [H E]]];
    rewrite E.
  - repeat split; try discriminate; try reflexivity; try (intros; exact H).
    + intros [_ H']. exfalso. exact (Qlt_not_le _ _ H' H).
    + intro H'. exfalso.
      exact (Qlt_not_le _ _ (Qlt_trans _ _ _ H' H7590) H).
  - repeat split; try discriminate; try reflexivity; try assumption.
    + intro H'. exfalso. exact (Qlt_not_le _ _ H2 H').
    + intro H'. exfalso. exact (Qlt_not_le _ _ H' H1).
  - repeat split; try discriminate; try reflexivity; try (intros; exact H).
    + intro H'. exfalso.
      exact (Qlt_not_le _ _ (Qlt_trans _ _ _ H H7590) H').
    + intros [H' _]. exfalso. exact (Qlt_not_le _ _ H H').
Qed.

(** The boundary rates of the spec's examples. *)
Example compliance_band_boundaries :
  compliance_band 89.9 = PartiallyCompliant /\
  compliance_band 90 = Compliant /\
  compliance_band 74.9 = NeedsImprovement /\
  compliance_band 75 = PartiallyCompliant /\
  compliance_band 95 = Compliant /\
  compliance_band 80 = PartiallyCompliant /\
  compliance_band 60 = NeedsImprovement.
Proof. repeat split; reflexivity. Qed.

(** The [Status] column of [compliance_data] is never read by the script,
    and it is not the banding of the row's rate: rows 80, 75 and 88 carry
    another band than the loop of lines 290-296 shows for them. *)
Example compliance_data_status_column :
  map (fun row => compliance_band (snd (fst row))) compliance_data =
    [ PartiallyCompliant; Compliant; Compliant;
      PartiallyCompliant; PartiallyCompliant; PartiallyCompliant ]
  /\ map snd compliance_data =
    [ PartiallyCompliant; Compliant; Compliant;
      NeedsImprovement; NeedsImprovement; Compliant ].
Proof. split; reflexivity. Qed.

(** C8.  Banding is monotonic: a rate that is not smaller gets a band that
    is not lower, in the order NeedsImprovement < middle tier <
    Compliant. *)
Theorem compliance_band_monotonic (r1 r2 : Q) :
  r1 <= r2 ->
  (band_rank (compliance_band r1) <= band_rank (compliance_band r2))%nat.
Proof.
  intro Hle.
  destruct (compliance_band_cases r1) as [[A E1] | [[A [A' E1]] | [A E1]]];
  destruct (compliance_band_cases r2) as [[B E2] | [[B [B' E2]] | [B E2]]];
  rewrite E1, E2; simpl; try lia; exfalso.
  - exact (Qlt_not_le _ _ B' (Qle_trans _ _ _ A Hle)).
  - assert (H7590 : 75 <= 90) by discriminate.
    exact (Qlt_not_le _ _ B (Qle_trans _ _ _ H7590 (Qle_trans _ _ _ A Hle))).
  - exact (Qlt_not_le _ _ B (Qle_trans _ _ _ A Hle)).
Qed.

Lemma compliance_band_monotonic_witness :
  74.9 <= 90 /\
  (band_rank (compliance_band 74.9) <= band_rank (compliance_band 90))%nat.
Proof.
  split.
  - discriminate.
  - apply (compliance_band_monotonic 74.9 90). discriminate.
Defined.

(** ** Alert generation *)

Lemma nonempty_filter_existsb {A} (f : A -> bool) (l : list A) :
  (0 <? List.length (filter f l))%nat = existsb f l.
Proof.
  induction l as [|x l IH]; simpl; [reflexivity|].
  destruct (f x); simpl; [reflexivity | exact IH].
Qed.

(** The block appends at most one message per test, in the order of the
    tests. *)
Lemma evaluate_fired (s : Store) :
  evaluate s =
    fired (existsb mask_pm25 (air_df s)) msg_pm25 ++
    fired (existsb mask_ph (water_df s)) msg_ph ++
    fired (existsb mask_so2 (air_df s)) msg_so2.
Proof.
  unfold evaluate. rewrite !nonempty_filter_existsb.
  destruct (existsb mask_pm25 (air_df s)), (existsb mask_ph (water_df s)),
           (existsb mask_so2 (air_df s)); reflexivity.
Qed.

Lemma msgs_distinct :
  msg_pm25 <> msg_ph /\ msg_pm25 <> msg_so2 /\ msg_ph <> msg_so2.
Proof.
  repeat split; intro H; apply String.eqb_eq in H; vm_compute in H;
    discriminate H.
Qed.

Ltac in_fired s :=
  let D1 := fresh "D" in
  let D2 := fresh "D" in
  let D3 := fresh "D" in
  rewrite evaluate_fired;
  pose proof msgs_distinct as [D1 [D2 D3]];
  destruct (existsb mask_pm25 (air_df s)), (existsb mask_ph (water_df s)),
           (existsb mask_so2 (air_df s)); simpl; intuition congruence.

Lemma In_evaluate_pm25 (s : Store) :
  In msg_pm25 (evaluate s) <-> existsb mask_pm25 (air_df s) = true.
Proof. in_fired s. Qed.

Lemma In_evaluate_ph (s : Store) :
  In msg_ph (evaluate s) <-> existsb mask_ph (water_df s) = true.
Proof. in_fired s. Qed.

Lemma In_evaluate_so2 (s : Store) :
  In msg_so2 (evaluate s) <-> existsb mask_so2 (air_df s) = true.
Proof. in_fired s. Qed.

(** Where the readings of a store come from. *)
Lemma In_readings (s : Store) (r : Reading) :
  In r (readings s) <->
  (exists row, In row (air_df s) /\ In r (air_readings row)) \/
  (exists row, In row (water_df s) /\ In r (water_readings row)).
Proof.
  unfold readings. rewrite in_app_iff, !in_flat_map. tauto.
Qed.

Lemma alerts_block_run (s : Store) (ns : Namespace) :
  alerts_block s ns = Some (render_alerts (evaluate s), Some (evaluate s)).
Proof.
  unfold alerts_block, evaluate, bind, assign_alerts, when, alerts_append,
    load_alerts, ret.
  destruct (0 <? List.length (filter mask_pm25 (air_df s)))%nat,
           (0 <? List.length (filter mask_ph (water_df s)))%nat,
           (0 <? List.length (filter mask_so2 (air_df s)))%nat; reflexivity.
Qed.

Lemma alert_sources :
  alert_source msg_pm25 = Some (air, PM2_5) /\
  alert_source msg_ph = Some (water, pH) /\
  alert_source msg_so2 = Some (air, SO2).
Proof. repeat split; reflexivity. Qed.

Lemma station_status_mask (row : Air.row) :
  station_status (Air.PM2_5 row) = Poor <-> mask_pm25 row = true.
Proof.
  unfold station_status, mask_pm25.
  destruct (Py.gt (Air.PM2_5 row) 35); split; congruence.
Qed.

(** The pH mask of the block tests the lower bound only. *)
Lemma ph_status_mask (row : Water.row) :
  ph_status (Water.pH row) = Poor <->
  mask_ph row = true \/ 8.5 < Water.pH row.
Proof.
  rewrite ph_status_Poor. unfold mask_ph. rewrite Py_lt_iff. tauto.
Qed.




Lemma In_evaluate_cases (s : Store) (a : string) :
  In a (evaluate s) ->
  (a = msg_pm25 /\ existsb mask_pm25 (air_df s) = true) \/
  (a = msg_ph /\ existsb mask_ph (water_df s) = true) \/
  (a = msg_so2 /\ existsb mask_so2 (air_df s) = true).
Proof.
  rewrite evaluate_fired.
  destruct (existsb mask_pm25 (air_df s)), (existsb mask_ph (water_df s)),
           (existsb mask_so2 (air_df s)); simpl; intuition.
Qed.

Lemma existsb_false_forall {A} (f : A -> bool) (l : list A) :
  existsb f l = false <-> forall x, In x l -> f x = false.
Proof.
  induction l as [|y l IH]; simpl.
  - split; [intros _ x [] | reflexivity].
  - rewrite orb_false_iff, IH. split.
    + intros [Hy Hl] x [<- | Hx]; [exact Hy | apply Hl; exact Hx].
    + intro H. split; [apply H; left; reflexivity|].
      intros x Hx. apply H. right. exact Hx.
Qed.




(** The end-to-end scenario: the station statuses and the alert list. *)
Example two_sites_scenario :
  map (fun r => (Air.Station r, station_status (Air.PM2_5 r)))
      (air_df store_two_sites)
    = [ ("North Zone"%string, Poor); ("Residential Area"%string, Good) ]
  /\ evaluate store_two_sites = [ msg_pm25 ]
  /\ evaluate store_many_breaches = [ msg_pm25 ].
Proof. repeat split; reflexivity. Qed.

(** C5, as the claim states it, fails: with a low pH and an SO2 above 20
    the water-domain alert comes before the air-domain alert. *)
Lemma water_alert_before_air_alert :
  evaluate store_low_ph_so2 = [ msg_ph; msg_so2 ] /\
  alert_domain msg_ph = Some water /\
  alert_domain msg_so2 = Some air.
Proof. repeat split; reflexivity. Qed.

(** C5, amended.  The alert sequence follows the fixed order of the
    block's tests: the PM2.5 alert (air), then the pH alert (water), then
    the SO2 alert (air), each present exactly when its test finds a row.
    So the air-domain PM2.5 alert precedes the water-domain alert, and the
    water-domain alert precedes the air-domain SO2 alert. *)
Theorem evaluate_declaration_order (s : Store) :
  evaluate s =
    fired (existsb mask_pm25 (air_df s)) msg_pm25 ++
    fired (existsb mask_ph (water_df s)) msg_ph ++
    fired (existsb mask_so2 (air_df s)) msg_so2
  /\ alert_source msg_pm25 = Some (air, PM2_5)
  /\ alert_source msg_ph = Some (water, pH)
  /\ alert_source msg_so2 = Some (air, SO2).
Proof.
  split; [apply evaluate_fired | exact alert_sources].
Qed.

(** Every row contributes the reading of each of its columns. *)
Lemma air_row_readings (s : Store) (row : Air.row) :
  In row (air_df s) ->
  In (Build_Reading (Air.Date row) (Air.Station row) air PM2_5 (Air.PM2_5 row))
     (readings s) /\
  In (Build_Reading (Air.Date row) (Air.Station row) air SO2 (Air.SO2 row))
     (readings s).
Proof.
  intro H. split; apply In_readings; left; exists row;
    (split; [exact H | simpl; tauto]).
Qed.

Lemma water_row_readings (s : Store) (row : Water.row) :
  In row (water_df s) ->
  In (Build_Reading (Water.Date row) (Water.Water_Body row) water pH (Water.pH row))
     (readings s).
Proof.
  intro H. apply In_readings; right; exists row.
  split; [exact H | simpl; tauto].
Qed.

Lemma no_breach_no_row (s : Store) :
  (forall r, In r (readings s) -> breaches r = false) ->
  existsb mask_pm25 (air_df s) = false /\
  existsb mask_ph (water_df s) = false /\
  existsb mask_so2 (air_df s) = false.
Proof.
  intro H. repeat split.
  - destruct (existsb mask_pm25 (air_df s)) eqn:E; [|reflexivity].
    apply existsb_exists in E. destruct E as [row [Hrow Hm]].
    destruct (air_row_readings s row Hrow) as [Hr _].
    apply H in Hr. unfold breaches, classify in Hr. simpl in Hr.
    apply station_status_mask in Hm. rewrite Hm in Hr. discriminate Hr.
  - destruct (existsb mask_ph (water_df s)) eqn:E; [|reflexivity].
    apply existsb_exists in E. destruct E as [row [Hrow Hm]].
    pose proof (water_row_readings s row Hrow) as Hr.
    apply H in Hr. unfold breaches, classify in Hr. simpl in Hr.
    assert (HP : ph_status (Water.pH row) = Poor)
      by (apply ph_status_mask; left; exact Hm).
    rewrite HP in Hr. discriminate Hr.
  - destruct (existsb mask_so2 (air_df s)) eqn:E; [|reflexivity].
    apply existsb_exists in E. destruct E as [row [Hrow Hm]].
    destruct (air_row_readings s row Hrow) as [_ Hr].
    apply H in Hr. unfold breaches, classify in Hr. simpl in Hr.
    unfold mask_so2 in Hm. unfold so2_elevated in Hr.
    rewrite Hm in Hr. discriminate Hr.
Qed.

(** C6, as the claim states it, fails at the empty store: no reading
    breaches a rule there, and the block raises [KeyError] at its first
    column lookup (line 303), the frames built from no rows having no
    columns. *)
Lemma empty_store_raises_KeyError :
  (forall r, In r (readings empty_store) -> breaches r = false)
  /\ alerts_page empty_store = inl (KeyError "PM2.5").
Proof.
  split; [|reflexivity]. intros r Hr. simpl in Hr. contradiction.
Qed.

(** C6, amended.  When both frames have at least one row and no reading
    of the store breaches a rule, the block completes without an
    exception, binds [alerts] to the empty list and shows one
    [st.success] element with the no-alerts message: a result of its own,
    which is neither a failure nor an empty page. *)
Theorem no_breach_explicit_no_alerts (s : Store) :
  air_df s <> [] ->
  water_df s <> [] ->
  (forall r, In r (readings s) -> breaches r = false) ->
  alerts_page s = inr [st_success msg_no_alerts]
  /\ evaluate s = []
  /\ (forall ns,
        alerts_block s ns = Some ([st_success msg_no_alerts], Some []))
  /\ render_alerts (evaluate s) <> [].
Proof.
  intros Ha Hw H. destruct (no_breach_no_row s H) as [E1 [E2 E3]].
  assert (E : evaluate s = [])
    by (rewrite evaluate_fired, E1, E2, E3; reflexivity).
  split; [| split; [exact E | split]].
  - unfold alerts_page, getitem.
    destruct (air_df s) as [|a l]; [exfalso; apply Ha; reflexivity|].
    destruct (water_df s) as [|w l']; [exfalso; apply Hw; reflexivity|].
    fold (air_df s). rewrite E. reflexivity.
  - intro ns. rewrite alerts_block_run, E. reflexivity.
  - rewrite E. discriminate.
Qed.

Lemma no_breach_explicit_no_alerts_witness :
  alerts_page store_all_good = inr [st_success msg_no_alerts]
  /\ evaluate store_all_good = []
  /\ alerts_block store_all_good None
       = Some ([st_success msg_no_alerts], Some []).
Proof.
  assert (H : forall r, In r (readings store_all_good) -> breaches r = false).
  { intros r Hr. vm_compute in Hr.
    repeat (destruct Hr as [Hr | Hr]; [subst r; reflexivity|]).
    contradiction. }
  assert (Ha : air_df store_all_good <> []) by discriminate.
  assert (Hw : water_df store_all_good <> []) by discriminate.
  destruct (no_breach_explicit_no_alerts store_all_good Ha Hw H)
    as [P [E [B _]]].
  split; [exact P | split; [exact E | exact (B None)]].
Defined.

(** C7.  The block is a function of the store alone: it starts by
    rebinding [alerts] (line 302), so the namespace it is entered with has
    no influence on its result, and running it again on the unchanged
    store, from the namespace the first run left, shows the same elements
    and leaves the same alert list. *)
Theorem alerts_block_stateless (s : Store) (ns1 ns2 : Namespace) :
  alerts_block s ns1 = alerts_block s ns2
  /\ exists out alerts,
       alerts_block s ns1 = Some (out, Some alerts) /\
       alerts_block s (Some alerts) = Some (out, Some alerts) /\
       alerts = evaluate s.
Proof.
  split.
  - rewrite !alerts_block_run. reflexivity.
  - exists (render_alerts (evaluate s)), (evaluate s).
    rewrite !alerts_block_run. repeat split.
Qed.

Lemma existsb_map_row {A B} (f : B -> bool) (g : A -> B) (l : list A) :
  existsb f (map g l) = existsb (fun x => f (g x)) l.
Proof.
  induction l as [|x l IH]; simpl; [reflexivity|]. rewrite IH. reflexivity.
Qed.

(** C10.  Every alert is one of three constant strings; the PM2.5 message
    names 'Industrial Area' and the pH message 'Canal Industrial' whatever
    the store is.  The alert list does not change when the site names and
    dates of the rows change, and it is the same for two stores on which
    the three tests have the same outcomes: an alert holds nothing of the
    rows that triggered it. *)
Theorem alert_messages_constant (s : Store) :
  (forall a, In a (evaluate s) -> a = msg_pm25 \/ a = msg_ph \/ a = msg_so2)
  /\ str_in "Industrial Area" msg_pm25 = true
  /\ str_in "Canal Industrial" msg_ph = true
  /\ (forall f g, evaluate (relabel f g s) = evaluate s)
  /\ (forall s',
        existsb mask_pm25 (air_df s') = existsb mask_pm25 (air_df s) ->
        existsb mask_ph (water_df s') = existsb mask_ph (water_df s) ->
        existsb mask_so2 (air_df s') = existsb mask_so2 (air_df s) ->
        evaluate s' = evaluate s).
Proof.
  split; [| split; [| split; [| split]]].
  - intro a. rewrite evaluate_fired.
    destruct (existsb mask_pm25 (air_df s)), (existsb mask_ph (water_df s)),
             (existsb mask_so2 (air_df s)); simpl; intuition.
  - reflexivity.
  - reflexivity.
  - intros f g. rewrite !evaluate_fired. unfold relabel. simpl.
    rewrite !existsb_map_row. reflexivity.
  - intros s' E1 E2 E3. rewrite !evaluate_fired, E1, E2, E3. reflexivity.
Qed.

Lemma alert_messages_constant_witness :
  (msg_pm25 = msg_pm25 \/ msg_pm25 = msg_ph \/ msg_pm25 = msg_so2)
  /\ evaluate store_many_breaches = evaluate store_two_sites.
Proof.
  split.
  - apply (proj1 (alert_messages_constant store_two_sites) msg_pm25).
    simpl. tauto.
  - apply (proj2 (proj2 (proj2 (proj2
             (alert_messages_constant store_two_sites)))) store_many_breaches);
      reflexivity.
Defined.

(** The PM2.5 alert names 'Industrial Area' although the rows above the
    bound are those of 'North Zone' and 'South Zone'. *)
Example alert_names_other_site :
  map Air.Station (filter mask_pm25 (air_df store_many_breaches))
    = [ "North Zone"; "South Zone"; "North Zone" ]%string
  /\ evaluate store_many_breaches
    = [ "🚨 HIGH PM2.5 levels detected in Industrial Area"%string ].
Proof. split; reflexivity. Qed.

(** ** The loops of [generate_environmental_data] *)

(** One date of the air loop leaves [station] bound to the last
    monitoring station, whatever the namespace was. *)
Lemma air_day_run (d : date) (l : Locals) :
  air_day d l =
    Some (tt, Build_Locals (Some d) (Some commercial) (water_body l)
                           (species l) (base_count l) (species_data l)).
Proof. reflexivity. Qed.

Lemma air_days_run (ds : list date) (l : Locals) :
  ds <> [] ->
  exists l', for_each ds air_day l = Some (tt, l') /\
             station l' = Some commercial /\
             species_data l' = species_data l.
Proof.
  revert l. induction ds as [|d ds IH]; intros l Hne; [contradiction|].
  simpl. unfold bind at 1. rewrite air_day_run.
  destruct ds as [|d' ds'].
  - simpl. unfold ret. eexists. split; [reflexivity|]. split; reflexivity.
  - destruct (IH (Build_Locals (Some d) (Some commercial) (water_body l)
                    (species l) (base_count l) (species_data l)))
      as [l' [E [Hs Hd]]]; [discriminate|].
    exists l'. split; [exact E|]. split; [exact Hs | exact Hd].
Qed.

(** The water loop binds [date] and [water_body] only. *)
Lemma water_day_run (d : date) (l : Locals) :
  water_day d l =
    Some (tt, Build_Locals (Some d) (station l) (Some "Reservoir South"%string)
                           (species l) (base_count l) (species_data l)).
Proof. reflexivity. Qed.

Lemma water_days_run (ds : list date) (l : Locals) :
  exists l', for_each ds water_day l = Some (tt, l') /\
             station l' = station l /\
             species_data l' = species_data l.
Proof.
  revert l. induction ds as [|d ds IH]; intro l.
  - exists l. repeat split.
  - simpl. unfold bind at 1. rewrite water_day_run.
    destruct (IH (Build_Locals (Some d) (station l)
                    (Some "Reservoir South"%string)
                    (species l) (base_count l) (species_data l)))
      as [l' [E [Hs Hd]]].
    exists l'. split; [exact E|]. split; [exact Hs | exact Hd].
Qed.

(** One iteration of the biodiversity loop body, entered with [station]
    still bound to 'Commercial District': the test of line 141 fails,
    [base_count] is 120 and [station] is left as it was. *)
Lemma biodiversity_body_run (sp : string) (l : Locals) (d : date) :
  station l = Some commercial ->
  date_ l = Some d ->
  biodiversity_body sp l =
    Some (tt, Build_Locals (Some d) (Some commercial) (water_body l)
                           (Some sp) (Some 120%Z)
                           (species_data l ++ [Build_BioRecord d sp 120])).
Proof.
  destruct l as [dt st wb spc bc sd]. simpl. intros -> ->. reflexivity.
Qed.

Lemma biodiversity_day_run (d : date) (l : Locals) :
  station l = Some commercial ->
  biodiversity_day d l =
    Some (tt, Build_Locals (Some d) (Some commercial) (water_body l)
                           (Some "Insect Species"%string) (Some 120%Z)
                           (species_data l ++ day_records 120 d)).
Proof.
  destruct l as [dt st wb spc bc sd]. simpl. intros ->.
  unfold biodiversity_day, day_records, species_list, bind at 1, store_date.
  cbn [for_each map date_ station water_body species base_count species_data].
  repeat (unfold bind at 1;
          erewrite biodiversity_body_run by reflexivity;
          cbn [date_ station water_body species base_count species_data]).
  unfold ret. rewrite <- !app_assoc. reflexivity.
Qed.

Lemma biodiversity_days_run (ds : list date) (l : Locals) :
  station l = Some commercial ->
  exists l', for_each ds biodiversity_day l = Some (tt, l') /\
             station l' = Some commercial /\
             species_data l' = species_data l ++ flat_map (day_records 120) ds.
Proof.
  revert l. induction ds as [|d ds IH]; intros l Hs.
  - exists l. simpl. rewrite app_nil_r. repeat split. exact Hs.
  - simpl for_each. unfold bind at 1. rewrite (biodiversity_day_run d l Hs).
    destruct (IH (Build_Locals (Some d) (Some commercial) (water_body l)
                    (Some "Insect Species"%string) (Some 120%Z)
                    (species_data l ++ day_records 120 d)) eq_refl)
      as [l' [E [Hs' Hd]]].
    exists l'. split; [exact E|]. split; [exact Hs'|].
    rewrite Hd. simpl. rewrite <- app_assoc. reflexivity.
Qed.

Lemma day_records_base_count (n : Z) (ds : list date) :
  Forall (fun r => bio_base_count r = n) (flat_map (day_records n) ds).
Proof.
  apply Forall_forall. intros r Hr. apply in_flat_map in Hr.
  destruct Hr as [d [_ Hr]]. unfold day_records in Hr.
  apply in_map_iff in Hr. destruct Hr as [sp [<- _]]. reflexivity.
Qed.

(** The loops with the comment marker put in on lines 110 and 138.
    When the biodiversity loop starts, [station] is still bound to the
    last monitoring station, 'Commercial District', left by the air loop.
    The loop never rebinds it: in every iteration the test
    ['Industrial' in station] fails and [base_count] is 120, so every
    record of [species_data] is built around 120, for every date and
    species. *)
Lemma biodiversity_base_count_120 :
  str_in "Industrial" commercial = false
  /\ (exists l1,
        (air_loop ;; water_loop) no_locals = Some (tt, l1) /\
        station l1 = Some commercial)
  /\ (forall sp l d,
        station l = Some commercial -> date_ l = Some d ->
        exists l',
          biodiversity_body sp l = Some (tt, l') /\
          station l' = Some commercial /\
          base_count l' = Some 120%Z /\
          species_data l' = species_data l ++ [Build_BioRecord d sp 120])
  /\ (exists l2,
        generate_environmental_data no_locals = Some (tt, l2) /\
        station l2 = Some commercial /\
        species_data l2 = flat_map (day_records 120) (slice_step 30 dates) /\
        List.length (species_data l2) = 65%nat /\
        Forall (fun r => bio_base_count r = 120%Z) (species_data l2)).
Proof.
  assert (Hdates : dates <> []) by discriminate.
  destruct (air_days_run dates no_locals Hdates) as [la [Ea [Hsa _]]].
  destruct (water_days_run (slice_step 7 dates) la) as [lw [Ew [Hsw _]]].
  rewrite Hsa in Hsw.
  set (l0 := Build_Locals (date_ lw) (station lw) (water_body lw)
                          (species lw) (base_count lw) []).
  destruct (biodiversity_days_run (slice_step 30 dates) l0 Hsw)
    as [lb [Eb [Hsb Hdb]]].
  change (species_data lb = flat_map (day_records 120) (slice_step 30 dates))
    in Hdb.
  split; [reflexivity|]. split; [| split].
  - exists lw. split; [|exact Hsw].
    unfold bind, air_loop, water_loop. rewrite Ea. exact Ew.
  - intros sp l d Hs Hd. eexists. split.
    + apply biodiversity_body_run; eassumption.
    + repeat split.
  - exists lb. split; [| split; [exact Hsb | split; [exact Hdb | split]]].
    + unfold generate_environmental_data, bind, air_loop, water_loop,
        biodiversity_loop. rewrite Ea, Ew.
      unfold bind, store_species_data. exact Eb.
    + rewrite Hdb. reflexivity.
    + rewrite Hdb. apply day_records_base_count.
Qed.


(** * Further properties of the script *)

(** ** The "Active Alerts" count and the alert list *)

Lemma filter_length_zero {A} (f : A -> bool) (l : list A) :
  List.length (filter f l) = 0%nat <-> existsb f l = false.
Proof.
  induction l as [|x l IH]; simpl; [tauto|].
  destruct (f x); simpl; [split; discriminate | exact IH].
Qed.

(** X1.  The count shown as "Active Alerts" is zero exactly when neither
    the PM2.5 alert nor the pH alert is in the alert list: the SO2 alert
    has no part in it. *)
Theorem alerts_count_zero_iff (s : Store) :
  alerts_count s = 0%nat <->
  ~ In msg_pm25 (evaluate s) /\ ~ In msg_ph (evaluate s).
Proof.
  unfold alerts_count. rewrite In_evaluate_pm25, In_evaluate_ph.
  rewrite Nat.eq_add_0, !filter_length_zero.
  destruct (existsb mask_pm25 (air_df s)), (existsb mask_ph (water_df s));
    intuition congruence.
Qed.



(** ** The rendered alert panel *)

Lemma error_bodies_map (l : list string) :
  error_bodies (map st_error l) = l.
Proof.
  unfold error_bodies.
  induction l as [|a l IH]; simpl; [reflexivity|].
  f_equal. exact IH.
Qed.

(** X3.  The panel of lines 310-314 shows every alert once, in the order
    of the list, as error elements; the success message is shown exactly
    when the list is empty, and never beside an error.  For the block's
    own list the panel has between one and three elements. *)
Theorem render_alerts_shows_alerts (alerts : list string) (s : Store) :
  error_bodies (render_alerts alerts) = alerts
  /\ (In (st_success msg_no_alerts) (render_alerts alerts) <-> alerts = [])
  /\ List.length (render_alerts alerts) = Nat.max 1 (List.length alerts)
  /\ (1 <= List.length (render_alerts (evaluate s)) <= 3)%nat.
Proof.
  split; [| split; [| split]].
  - destruct alerts as [|a l]; [reflexivity|].
    change (render_alerts (a :: l)) with (map st_error (a :: l)).
    apply error_bodies_map.
  - destruct alerts as [|a l]; simpl.
    + split; [reflexivity | intros _; left; reflexivity].
    + split; [|discriminate]. intros [H | H]; [discriminate H|].
      apply in_map_iff in H. destruct H as [x [H _]]. discriminate H.
  - destruct alerts as [|a l]; simpl; [reflexivity|].
    rewrite length_map. reflexivity.
  - rewrite evaluate_fired.
    destruct (existsb mask_pm25 (air_df s)), (existsb mask_ph (water_df s)),
             (existsb mask_so2 (air_df s)); simpl; lia.
Qed.

(** ** The rows of the latest date *)

Lemma fold_left_max_init (t : list nat) (d : nat) :
  (d <= fold_left Nat.max t d)%nat.
Proof.
  revert d. induction t as [|y t IH]; intro d; simpl; [lia|].
  specialize (IH (Nat.max d y)). lia.
Qed.

Lemma fold_left_max_ge (t : list nat) (d x : nat) :
  In x (d :: t) -> (x <= fold_left Nat.max t d)%nat.
Proof.
  revert d. induction t as [|y t IH]; intros d H.
  - destruct H as [H | []]. subst. simpl. lia.
  - simpl. destruct H as [H | [H | H]].
    + subst. pose proof (fold_left_max_init t (Nat.max x y)). lia.
    + subst. pose proof (fold_left_max_init t (Nat.max d x)). lia.
    + apply IH. right. exact H.
Qed.

Lemma fold_left_max_In (t : list nat) (d : nat) :
  In (fold_left Nat.max t d) (d :: t).
Proof.
  revert d. induction t as [|y t IH]; intro d; simpl; [tauto|].
  destruct (IH (Nat.max d y)) as [H | H].
  - rewrite <- H.
    destruct (Nat.max_spec d y) as [[_ E] | [_ E]]; rewrite E; tauto.
  - tauto.
Qed.

Lemma max_date_spec (l : list date) (m : date) :
  max_date l = Some m ->
  In m l /\ forall x, In x l -> (x <= m)%nat.
Proof.
  destruct l as [|d t]; simpl; [discriminate|].
  intro H. inversion H; subst. split.
  - apply fold_left_max_In.
  - intros x Hx. apply fold_left_max_ge. exact Hx.
Qed.

Lemma latest_rows {A} (f : A -> date) (l : list A) (r : A) :
  In r (match max_date (map f l) with
        | Some m => filter (fun x => (f x =? m)%nat) l
        | None => []
        end)
  <-> In r l /\ forall r', In r' l -> (f r' <= f r)%nat.
Proof.
  destruct (max_date (map f l)) as [m|] eqn:E.
  - apply max_date_spec in E. destruct E as [Hm Hmax].
    rewrite filter_In, Nat.eqb_eq. split.
    + intros [Hr Heq]. split; [exact Hr|]. intros r' Hr'.
      rewrite Heq. apply Hmax. apply in_map. exact Hr'.
    + intros [Hr Hall]. split; [exact Hr|].
      apply in_map_iff in Hm. destruct Hm as [r0 [E0 Hr0]].
      specialize (Hall r0 Hr0). rewrite E0 in Hall.
      specialize (Hmax (f r) (in_map f l r Hr)). lia.
  - destruct l as [|x l]; [|discriminate E]. simpl. tauto.
Qed.

Lemma latest_nonempty {A} (f : A -> date) (l : list A) :
  l <> [] ->
  match max_date (map f l) with
  | Some m => filter (fun x => (f x =? m)%nat) l
  | None => []
  end <> [].
Proof.
  intros Hne Hnil.
  destruct (max_date (map f l)) as [m|] eqn:E.
  - apply max_date_spec in E. destruct E as [Hm _].
    apply in_map_iff in Hm. destruct Hm as [r0 [E0 Hr0]].
    assert (Hin : In r0 (filter (fun x => (f x =? m)%nat) l)).
    { apply filter_In. split; [exact Hr0 | apply Nat.eqb_eq; exact E0]. }
    rewrite Hnil in Hin. exact Hin.
  - destruct l as [|x l]; [apply Hne; reflexivity | discriminate E].
Qed.

(** X4.  The selections of lines 175, 181 and 213 hold exactly the rows
    of the frame that no row of the frame is later than; they hold at
    least one row whenever the frame has one. *)
Theorem latest_rows_are_the_latest (s : Store) :
  (forall r, In r (latest_air s) <->
             In r (air_df s) /\
             forall r', In r' (air_df s) -> (Air.Date r' <= Air.Date r)%nat)
  /\ (forall r, In r (latest_water s) <->
                In r (water_df s) /\
                forall r', In r' (water_df s) ->
                           (Water.Date r' <= Water.Date r)%nat)
  /\ (air_df s <> [] -> latest_air s <> [])
  /\ (water_df s <> [] -> latest_water s <> []).
Proof.
  repeat split; try (apply (latest_rows Air.Date (air_df s) r); assumption);
    try (apply (latest_rows Water.Date (water_df s) r); assumption).
  - apply (latest_nonempty Air.Date).
  - apply (latest_nonempty Water.Date).
Qed.

Lemma latest_rows_are_the_latest_witness :
  latest_air store_many_breaches <> [] /\
  In (Air.mk 1%nat "North Zone" 36 80 18 25 35 1.2)
     (latest_air store_many_breaches).
Proof.
  split.
  - apply (proj1 (proj2 (proj2 (latest_rows_are_the_latest store_many_breaches)))).
    discriminate.
  - apply (proj1 (latest_rows_are_the_latest store_many_breaches)).
    split; [simpl; tauto|].
    intros r' [<- | [<- | [<- | []]]]; simpl; lia.
Defined.

(** ** Station cards *)

Lemma In_unique (l : list string) (x : string) :
  In x (unique l) <-> In x l.
Proof.
  induction l as [|a l IH]; simpl; [tauto|].
  rewrite filter_In, IH, negb_true_iff, String.eqb_neq.
  destruct (string_dec a x) as [E | E]; [tauto|].
  split; [tauto|]. intros [H | H]; [tauto|]. right. split; [exact H|].
  intro E'. apply E. symmetry. exact E'.
Qed.

Lemma NoDup_unique (l : list string) : NoDup (unique l).
Proof.
  induction l as [|a l IH]; simpl; [constructor|].
  constructor.
  - rewrite filter_In, String.eqb_refl. simpl. intros [_ H]. discriminate H.
  - apply NoDup_filter. exact IH.
Qed.

Lemma insert_key_perm (k : string) (l : list string) :
  Permutation (insert_key k l) (k :: l).
Proof.
  induction l as [|h t IH]; simpl; [apply Permutation_refl|].
  destruct (String.leb k h); [apply Permutation_refl|].
  apply perm_trans with (h :: k :: t); [|apply perm_swap].
  apply perm_skip. exact IH.
Qed.

Lemma sort_keys_perm (l : list string) : Permutation (sort_keys l) l.
Proof.
  induction l as [|h t IH]; simpl; [apply perm_nil|].
  apply perm_trans with (h :: sort_keys t); [apply insert_key_perm|].
  apply perm_skip. exact IH.
Qed.

Lemma insert_key_sorted (k : string) (l : list string) :
  Sorted key_le l -> Sorted key_le (insert_key k l).
Proof.
  induction l as [|h t IH]; intro Hs; simpl.
  - constructor; constructor.
  - destruct (String.leb k h) eqn:E.
    + constructor; [exact Hs|]. constructor. exact E.
    + inversion Hs as [|? ? Ht Hh]; subst.
      constructor; [apply IH; exact Ht|].
      assert (Ehk : key_le h k).
      { destruct (String.leb_total k h) as [H | H]; [congruence | exact H]. }
      destruct t as [|h' t']; simpl.
      * constructor. exact Ehk.
      * destruct (String.leb k h'); constructor;
          [exact Ehk | inversion Hh; assumption].
Qed.

Lemma sort_keys_sorted (l : list string) : Sorted key_le (sort_keys l).
Proof.
  induction l as [|h t IH]; simpl; [constructor|].
  apply insert_key_sorted. exact IH.
Qed.

Lemma filter_head {A} (p : A -> bool) (l : list A) (x : A) (rest : list A) :
  filter p l = x :: rest ->
  exists pre post, l = pre ++ x :: post /\ p x = true /\
                   forall y, In y pre -> p y = false.
Proof.
  induction l as [|a l IH]; simpl; [discriminate|].
  destruct (p a) eqn:E.
  - intro H. inversion H; subst. exists [], l.
    split; [reflexivity|]. split; [exact E|]. intros y [].
  - intro H. destruct (IH H) as [pre [post [El [Hx Hpre]]]].
    exists (a :: pre), post. split; [rewrite El; reflexivity|].
    split; [exact Hx|]. intros y [<- | Hy]; [exact E | apply Hpre; exact Hy].
Qed.

Lemma nth_error_seq0 (n i : nat) :
  (i < n)%nat -> nth_error (seq 0 n) i = Some i.
Proof.
  intro H. rewrite nth_error_nth' with (d := 0%nat);
    [|rewrite length_seq; exact H].
  rewrite seq_nth; [reflexivity | exact H].
Qed.

Lemma render_cards_run (n : nat) (groups : list (string * list Air.row)) :
  Forall (fun g => snd g <> []) groups ->
  forall idx, (idx + List.length groups <= n)%nat ->
  exists cards,
    render_cards (seq 0 n) idx groups = Some cards /\
    map card_column cards = seq idx (List.length groups) /\
    Forall2 card_of_group cards groups.
Proof.
  induction 1 as [|[k data] groups Hne _ IH]; intros idx Hle.
  - exists []. repeat split. constructor.
  - simpl in Hle. simpl render_cards.
    rewrite nth_error_seq0 by lia.
    destruct data as [|row rest]; [exfalso; apply Hne; reflexivity|].
    simpl nth_error.
    destruct (IH (S idx)) as [cards [E [Hc Hf]]]; [lia|].
    rewrite E. simpl. eexists. split; [reflexivity|]. split.
    + simpl. rewrite Hc. reflexivity.
    + constructor; [|exact Hf]. split; [reflexivity|].
      exists row, rest. repeat split.
Qed.

Lemma cards_of_groups (l : list Air.row) (ks : list string) :
  forall cards,
    Forall2 card_of_group cards
      (map (fun k => (k, filter (fun r => String.eqb (Air.Station r) k) l)) ks) ->
    map card_station cards = ks /\ Forall (card_first_row l) cards.
Proof.
  induction ks as [|k ks IH]; intros cards H; simpl in H.
  - inversion H; subst. split; constructor.
  - inversion H as [|c g cards' gs Hc Hrest]; subst.
    destruct (IH cards' Hrest) as [Hm Hf].
    destruct Hc as [Hk [row [rest [Hsnd [Hpm Hst]]]]]. simpl in Hk, Hsnd.
    split; [simpl; rewrite Hk, Hm; reflexivity|].
    constructor; [|exact Hf].
    destruct (filter_head _ _ _ _ Hsnd) as [pre [post [El [Hrow Hpre]]]].
    exists pre, row, post. split; [exact El|].
    apply String.eqb_eq in Hrow. rewrite Hk.
    split; [exact Hrow|]. split; [|split; assumption].
    intros r Hr. apply String.eqb_neq. apply Hpre. exact Hr.
Qed.

Lemma station_cards_run (s : Store) :
  air_df s <> [] ->
  exists cards,
    station_cards s = Some cards /\
    map card_column cards = seq 0 (List.length cards) /\
    map card_station cards = sort_keys (unique (map Air.Station (latest_air s))) /\
    Forall (card_first_row (latest_air s)) cards.
Proof.
  intro Hne.
  assert (HL : latest_air s <> []) by (apply (latest_nonempty Air.Date); exact Hne).
  unfold station_cards. cbv zeta.
  set (L := latest_air s) in *.
  set (ks := unique (map Air.Station L)).
  assert (Hks : List.length ks <> 0%nat).
  { unfold ks. destruct L as [|r L']; [exfalso; apply HL; reflexivity|].
    simpl. discriminate. }
  unfold st_columns. destruct (Nat.eqb_spec (List.length ks) 0) as [E | _];
    [exfalso; exact (Hks E)|].
  assert (Hgroups : Forall (fun g : string * list Air.row => snd g <> [])
                           (groupby_Station L)).
  { unfold groupby_Station. apply Forall_forall. intros g Hg.
    apply in_map_iff in Hg. destruct Hg as [k [<- Hk]]. simpl.
    apply (Permutation_in _ (sort_keys_perm _)) in Hk.
    apply (proj1 (In_unique _ _)) in Hk. apply in_map_iff in Hk.
    destruct Hk as [r [Er Hr]]. intro Hnil.
    assert (Hin : In r (filter (fun r0 => String.eqb (Air.Station r0) k) L)).
    { apply filter_In. split; [exact Hr | apply String.eqb_eq; exact Er]. }
    rewrite Hnil in Hin. exact Hin. }
  assert (Hlen : List.length (groupby_Station L) = List.length ks).
  { unfold groupby_Station. rewrite length_map.
    apply Permutation_length. apply sort_keys_perm. }
  destruct (render_cards_run (List.length ks) (groupby_Station L) Hgroups 0%nat)
    as [cards [E [Hcols Hf]]]; [lia|].
  exists cards. split; [exact E|].
  assert (Hlc : List.length cards = List.length ks).
  { rewrite <- Hlen. exact (Forall2_length Hf). }
  split; [rewrite Hcols, Hlen, Hlc; reflexivity|].
  unfold groupby_Station in Hf.
  exact (cards_of_groups L _ cards Hf).
Qed.

(** X5.  For a non-empty air frame the card loop of lines 213-222 runs
    without an [IndexError]: it draws one card per station that has a row
    on the latest date, each in a column of its own, in ascending order
    of the station names, from the first latest row of the station. *)
Theorem station_cards_one_per_station (s : Store) :
  air_df s <> [] ->
  exists cards,
    station_cards s = Some cards
    /\ map card_column cards = seq 0 (List.length cards)
    /\ Sorted key_le (map card_station cards)
    /\ NoDup (map card_station cards)
    /\ (forall st, In st (map card_station cards) <->
                   exists r, In r (latest_air s) /\ Air.Station r = st)
    /\ Forall (card_first_row (latest_air s)) cards.
Proof.
  intro Hne. destruct (station_cards_run s Hne) as [cards [E [Hc [Hs Hf]]]].
  exists cards. split; [exact E|]. split; [exact Hc|]. rewrite Hs.
  split; [apply sort_keys_sorted|]. split; [| split; [|exact Hf]].
  - apply (Permutation_NoDup (Permutation_sym (sort_keys_perm _))).
    apply NoDup_unique.
  - intro st. split.
    + intro H. apply (Permutation_in _ (sort_keys_perm _)) in H.
      apply (proj1 (In_unique _ _)) in H. apply in_map_iff in H.
      destruct H as [r [Er Hr]]. exists r. split; assumption.
    + intros [r [Hr Er]].
      apply (Permutation_in _ (Permutation_sym (sort_keys_perm _))).
      apply In_unique. apply in_map_iff. exists r. split; assumption.
Qed.

Lemma station_cards_one_per_station_witness :
  exists cards,
    station_cards store_two_sites = Some cards
    /\ map card_column cards = seq 0 (List.length cards)
    /\ Sorted key_le (map card_station cards)
    /\ NoDup (map card_station cards)
    /\ (forall st, In st (map card_station cards) <->
                   exists r, In r (latest_air store_two_sites) /\
                             Air.Station r = st)
    /\ Forall (card_first_row (latest_air store_two_sites)) cards.
Proof.
  apply (station_cards_one_per_station store_two_sites). discriminate.
Defined.



(** The alert can be there with every card GOOD: the rows above the bound
    are older than the latest date. *)
Example alert_without_poor_card :
  station_cards
    {| air_df := [ Air.mk 0%nat "North Zone" 40 80 18 25 35 1.2;
                   Air.mk 1%nat "North Zone" 30 60 18 25 35 1.2 ];
       water_df := [] |}
    = Some [ Build_Card 0 "North Zone" 30 Good ]
  /\ evaluate
       {| air_df := [ Air.mk 0%nat "North Zone" 40 80 18 25 35 1.2;
                      Air.mk 1%nat "North Zone" 30 60 18 25 35 1.2 ];
          water_df := [] |}
     = [ msg_pm25 ].
Proof. split; reflexivity. Qed.

(** ** The rows the loops build *)

Lemma py_max_ge (a b : Q) : a <= py_max a b.
Proof.
  unfold py_max. destruct (Py.gt b a) eqn:E.
  - apply Py_gt_iff in E. apply Qlt_le_weak. exact E.
  - apply Qle_refl.
Qed.

Section GeneratedFrames.

Variable normal : Q -> Q -> nat -> Q.
Variable seasonal_factor : date -> Q.

Lemma for_each_cons {S A} (x : A) (xs : list A) (body : A -> Stmt S unit)
    (st : S) :
  for_each (x :: xs) body st =
    match body x st with
    | Some (_, st') => for_each xs body st'
    | None => None
    end.
Proof. reflexivity. Qed.

Lemma air_body_run (d : date) (s : string) (st : Gen.State) :
  exists row,
    Gen.air_body normal seasonal_factor d s st =
      Some (tt, Gen.mkState (6 + Gen.calls st) (Some s)
                            (Gen.air_data st ++ [row])
                            (Gen.water_data st) (Gen.species_data st)) /\
    air_floor row /\ air_key row = (d, s).
Proof.
  unfold Gen.air_body, bind, Gen.store_station, Gen.load_station.
  simpl. destruct (Gen.base_levels s) as [[b1 b2] b3].
  unfold Gen.random_normal, Gen.air_data_append. simpl.
  eexists. split; [reflexivity|]. split; [|reflexivity].
  unfold air_floor. simpl. repeat split; apply py_max_ge.
Qed.

Lemma air_day_run' (d : date) (ss : list string) (st : Gen.State) :
  exists rows st',
    for_each ss (Gen.air_body normal seasonal_factor d) st = Some (tt, st') /\
    Gen.air_data st' = Gen.air_data st ++ rows /\
    Forall air_floor rows /\
    map air_key rows = map (pair d) ss /\
    Gen.calls st' = (6 * List.length ss + Gen.calls st)%nat /\
    Gen.station st' = match ss with
                      | [] => Gen.station st
                      | _ :: _ => Some (last ss EmptyString)
                      end /\
    Gen.water_data st' = Gen.water_data st /\
    Gen.species_data st' = Gen.species_data st.
Proof.
  revert st. induction ss as [|s ss IH]; intro st.
  - exists [], st. simpl. rewrite app_nil_r. repeat split. constructor.
  - destruct (air_body_run d s st) as [row [E [Hf Hk]]].
    destruct (IH (Gen.mkState (6 + Gen.calls st) (Some s)
                    (Gen.air_data st ++ [row])
                    (Gen.water_data st) (Gen.species_data st)))
      as [rows [st' [E' [Ha [Hfl [Hkeys [Hc [Hs [Hw Hsp]]]]]]]]].
    simpl in Ha, Hc, Hs, Hw, Hsp.
    exists (row :: rows), st'. rewrite for_each_cons, E.
    split; [exact E'|].
    split; [rewrite Ha, <- app_assoc; reflexivity|].
    split; [constructor; assumption|].
    split; [simpl; rewrite Hk, Hkeys; reflexivity|].
    split; [rewrite Hc; simpl List.length; lia|].
    split; [|split; assumption].
    rewrite Hs. destruct ss; reflexivity.
Qed.

Lemma air_loop_run (ds : list date) (st : Gen.State) :
  exists rows st',
    for_each ds (fun d => for_each monitoring_stations (Gen.air_body normal seasonal_factor d)) st
      = Some (tt, st') /\
    Gen.air_data st' = Gen.air_data st ++ rows /\
    Forall air_floor rows /\
    map air_key rows = loop_keys ds monitoring_stations /\
    Gen.calls st' = (30 * List.length ds + Gen.calls st)%nat /\
    (ds <> [] -> Gen.station st' = Some commercial) /\
    Gen.water_data st' = Gen.water_data st /\
    Gen.species_data st' = Gen.species_data st.
Proof.
  revert st. induction ds as [|d ds IH]; intro st.
  - exists [], st. simpl. rewrite app_nil_r. repeat split.
    + constructor.
    + intro H. exfalso. apply H. reflexivity.
  - destruct (air_day_run' d monitoring_stations st)
      as [rows1 [st1 [E1 [Ha1 [Hf1 [Hk1 [Hc1 [Hs1 [Hw1 Hsp1]]]]]]]]].
    destruct (IH st1)
      as [rows2 [st2 [E2 [Ha2 [Hf2 [Hk2 [Hc2 [Hs2 [Hw2 Hsp2]]]]]]]]].
    exists (rows1 ++ rows2), st2. rewrite for_each_cons, E1.
    split; [exact E2|].
    split; [rewrite Ha2, Ha1, <- app_assoc; reflexivity|].
    split; [apply Forall_app; split; assumption|].
    split; [rewrite map_app, Hk1, Hk2; reflexivity|].
    split; [rewrite Hc2, Hc1; simpl List.length; lia|].
    split; [|split; congruence].
    intros _. destruct ds as [|d' ds'].
    + simpl in E2. inversion E2; subst st2. rewrite Hs1. reflexivity.
    + apply Hs2. discriminate.
Qed.

Lemma water_body_run (d : date) (w : string) (st : Gen.State) :
  exists row,
    Gen.water_body normal d w st =
      Some (tt, Gen.mkState (6 + Gen.calls st) (Gen.station st)
                            (Gen.air_data st)
                            (Gen.water_data st ++ [row]) (Gen.species_data st)) /\
    water_floor row /\ water_key row = (d, w).
Proof.
  unfold Gen.water_body. destruct (Gen.water_base_levels w) as [[b1 b2] b3].
  unfold bind, Gen.random_normal, Gen.water_data_append. simpl.
  eexists. split; [reflexivity|]. split; [|reflexivity].
  unfold water_floor. simpl. repeat split; apply py_max_ge.
Qed.

Lemma water_day_run' (d : date) (ws : list string) (st : Gen.State) :
  exists rows st',
    for_each ws (Gen.water_body normal d) st = Some (tt, st') /\
    Gen.water_data st' = Gen.water_data st ++ rows /\
    Forall water_floor rows /\
    map water_key rows = map (pair d) ws /\
    Gen.calls st' = (6 * List.length ws + Gen.calls st)%nat /\
    Gen.station st' = Gen.station st /\
    Gen.air_data st' = Gen.air_data st /\
    Gen.species_data st' = Gen.species_data st.
Proof.
  revert st. induction ws as [|w ws IH]; intro st.
  - exists [], st. simpl. rewrite app_nil_r. repeat split. constructor.
  - destruct (water_body_run d w st) as [row [E [Hf Hk]]].
    destruct (IH (Gen.mkState (6 + Gen.calls st) (Gen.station st)
                    (Gen.air_data st)
                    (Gen.water_data st ++ [row]) (Gen.species_data st)))
      as [rows [st' [E' [Hw [Hfl [Hkeys [Hc [Hs [Ha Hsp]]]]]]]]].
    simpl in Hw, Hc, Hs, Ha, Hsp.
    exists (row :: rows), st'. rewrite for_each_cons, E.
    split; [exact E'|].
    split; [rewrite Hw, <- app_assoc; reflexivity|].
    split; [constructor; assumption|].
    split; [simpl; rewrite Hk, Hkeys; reflexivity|].
    split; [rewrite Hc; simpl List.length; lia|].
    repeat split; assumption.
Qed.

Lemma water_loop_run (ds : list date) (st : Gen.State) :
  exists rows st',
    for_each ds (fun d => for_each water_bodies (Gen.water_body normal d)) st
      = Some (tt, st') /\
    Gen.water_data st' = Gen.water_data st ++ rows /\
    Forall water_floor rows /\
    map water_key rows = loop_keys ds water_bodies /\
    Gen.calls st' = (24 * List.length ds + Gen.calls st)%nat /\
    Gen.station st' = Gen.station st /\
    Gen.air_data st' = Gen.air_data st /\
    Gen.species_data st' = Gen.species_data st.
Proof.
  revert st. induction ds as [|d ds IH]; intro st.
  - exists [], st. simpl. rewrite app_nil_r. repeat split. constructor.
  - destruct (water_day_run' d water_bodies st)
      as [rows1 [st1 [E1 [Hw1 [Hf1 [Hk1 [Hc1 [Hs1 [Ha1 Hsp1]]]]]]]]].
    destruct (IH st1)
      as [rows2 [st2 [E2 [Hw2 [Hf2 [Hk2 [Hc2 [Hs2 [Ha2 Hsp2]]]]]]]]].
    exists (rows1 ++ rows2), st2. rewrite for_each_cons, E1.
    split; [exact E2|].
    split; [rewrite Hw2, Hw1, <- app_assoc; reflexivity|].
    split; [apply Forall_app; split; assumption|].
    split; [rewrite map_app, Hk1, Hk2; reflexivity|].
    split; [rewrite Hc2, Hc1; simpl List.length; lia|].
    repeat split; congruence.
Qed.

Lemma species_body_run (d : date) (sp : string) (st : Gen.State) :
  Gen.station st = Some commercial ->
  exists row,
    Gen.species_body normal d sp st =
      Some (tt, Gen.mkState (2 + Gen.calls st) (Gen.station st)
                            (Gen.air_data st) (Gen.water_data st)
                            (Gen.species_data st ++ [row])) /\
    (10 <= Bio.Count row)%Z /\ drawn_around normal 120 row /\
    bio_key row = (d, sp).
Proof.
  intro Hs. destruct st as [c s a w b]. simpl in Hs. subst s.
  unfold Gen.species_body, bind, Gen.load_station. simpl.
  eexists. split; [reflexivity|]. split; [|split; [|reflexivity]].
  - simpl. apply Z.le_max_l.
  - exists c. reflexivity.
Qed.

Lemma species_day_run (d : date) (sps : list string) (st : Gen.State) :
  Gen.station st = Some commercial ->
  exists rows st',
    for_each sps (Gen.species_body normal d) st = Some (tt, st') /\
    Gen.species_data st' = Gen.species_data st ++ rows /\
    Forall (fun r => (10 <= Bio.Count r)%Z /\ drawn_around normal 120 r) rows /\
    map bio_key rows = map (pair d) sps /\
    Gen.calls st' = (2 * List.length sps + Gen.calls st)%nat /\
    Gen.station st' = Some commercial /\
    Gen.air_data st' = Gen.air_data st /\
    Gen.water_data st' = Gen.water_data st.
Proof.
  revert st. induction sps as [|sp sps IH]; intros st Hst.
  - exists [], st. simpl. rewrite app_nil_r. repeat split; [constructor|exact Hst].
  - destruct (species_body_run d sp st Hst) as [row [E [Hc10 [Hd Hk]]]].
    destruct (IH (Gen.mkState (2 + Gen.calls st) (Gen.station st)
                    (Gen.air_data st) (Gen.water_data st)
                    (Gen.species_data st ++ [row])) Hst)
      as [rows [st' [E' [Hb [Hfl [Hkeys [Hc [Hs [Ha Hw]]]]]]]]].
    simpl in Hb, Hc, Ha, Hw.
    exists (row :: rows), st'. rewrite for_each_cons, E.
    split; [exact E'|].
    split; [rewrite Hb, <- app_assoc; reflexivity|].
    split; [constructor; [split; assumption | assumption]|].
    split; [simpl; rewrite Hk, Hkeys; reflexivity|].
    split; [rewrite Hc; simpl List.length; lia|].
    repeat split; assumption.
Qed.

Lemma species_loop_run (ds : list date) (st : Gen.State) :
  Gen.station st = Some commercial ->
  exists rows st',
    for_each ds (fun d => for_each species_list (Gen.species_body normal d)) st
      = Some (tt, st') /\
    Gen.species_data st' = Gen.species_data st ++ rows /\
    Forall (fun r => (10 <= Bio.Count r)%Z /\ drawn_around normal 120 r) rows /\
    map bio_key rows = loop_keys ds species_list /\
    Gen.calls st' = (10 * List.length ds + Gen.calls st)%nat /\
    Gen.air_data st' = Gen.air_data st /\
    Gen.water_data st' = Gen.water_data st.
Proof.
  revert st. induction ds as [|d ds IH]; intros st Hst.
  - exists [], st. simpl. rewrite app_nil_r. repeat split. constructor.
  - destruct (species_day_run d species_list st Hst)
      as [rows1 [st1 [E1 [Hb1 [Hf1 [Hk1 [Hc1 [Hs1 [Ha1 Hw1]]]]]]]]].
    destruct (IH st1 Hs1)
      as [rows2 [st2 [E2 [Hb2 [Hf2 [Hk2 [Hc2 [Ha2 Hw2]]]]]]]].
    exists (rows1 ++ rows2), st2. rewrite for_each_cons, E1.
    split; [exact E2|].
    split; [rewrite Hb2, Hb1, <- app_assoc; reflexivity|].
    split; [apply Forall_app; split; assumption|].
    split; [rewrite map_app, Hk1, Hk2; reflexivity|].
    split; [rewrite Hc2, Hc1; simpl List.length; lia|].
    split; congruence.
Qed.

(** The air block: it completes, and these are its rows. *)
Lemma air_block_run (st0 : Gen.State) :
  exists air st',
    Gen.air_block normal seasonal_factor st0 = Some (air, st') /\
    Forall air_floor air /\
    map air_key air = loop_keys dates monitoring_stations /\
    Gen.calls st' = (30 * 366 + Gen.calls st0)%nat /\
    Gen.station st' = Some commercial.
Proof.
  unfold Gen.air_block. unfold bind at 1. unfold Gen.assign_air_data.
  destruct (air_loop_run dates
              (Gen.mkState (Gen.calls st0) (Gen.station st0) []
                           (Gen.water_data st0) (Gen.species_data st0)))
    as [air [st1 [E1 [Ha1 [Hf1 [Hk1 [Hc1 [Hs1 _]]]]]]]].
  unfold bind at 1. rewrite E1. simpl in Ha1, Hc1.
  exists air, st1. rewrite Ha1.
  split; [reflexivity|]. split; [exact Hf1|]. split; [exact Hk1|].
  split; [exact Hc1|]. apply Hs1. discriminate.
Qed.

(** The keys of the rows a date filter keeps. *)
Lemma map_filter_key {A K} (key : A -> K) (p : K -> bool) (l : list A) :
  map key (filter (fun r => p (key r)) l) = filter p (map key l).
Proof.
  induction l as [|x l IH]; simpl; [reflexivity|].
  destruct (p (key x)); simpl; rewrite IH; reflexivity.
Qed.

(** X7.  Whatever the draws and whatever the state they are entered
    with, the air loop of lines 72-104 and the water loop body of lines
    111-130 complete, and every value they put in a clamped column is at
    or above its floor: PM2.5 10, PM10 20, SO2 5, NO2 8, O3 20, CO 0.5,
    dissolved oxygen 2, BOD 1, COD 3. *)
Theorem loop_rows_floors (st0 : Gen.State) (d : date) (st : Gen.State) :
  (exists air st',
     Gen.air_block normal seasonal_factor st0 = Some (air, st')
     /\ Forall air_floor air)
  /\ (exists rows st',
        for_each water_bodies (Gen.water_body normal d) st = Some (tt, st')
        /\ Gen.water_data st' = Gen.water_data st ++ rows
        /\ map water_key rows = map (pair d) water_bodies
        /\ Forall water_floor rows).
Proof.
  split.
  - destruct (air_block_run st0) as [air [st' [E [Hf _]]]].
    exists air, st'. split; assumption.
  - destruct (water_day_run' d water_bodies st)
      as [rows [st' [E [Hw [Hf [Hk _]]]]]].
    exists rows, st'. repeat (split; [assumption|]). exact Hf.
Qed.

(** X8.  The rows the air loop of lines 72-104 builds are one per date
    and station, in loop order: 1830 rows (366 days, 5 stations) from
    10980 draws, the latest of day 365 after 2023-01-01; the stations
    counted in the footer (line 359) are the five monitoring stations. *)
Theorem air_frame_shape (st0 : Gen.State) :
  exists air st',
    Gen.air_block normal seasonal_factor st0 = Some (air, st')
    /\ map air_key air = loop_keys dates monitoring_stations
    /\ List.length air = 1830%nat
    /\ max_date (map Air.Date air) = Some 365%nat
    /\ unique (map Air.Station air) = monitoring_stations
    /\ Gen.calls st' = (30 * 366 + Gen.calls st0)%nat.
Proof.
  destruct (air_block_run st0) as [air [st' [E [_ [Ha [Hc _]]]]]].
  exists air, st'.
  split; [exact E|]. split; [exact Ha|].
  split; [rewrite <- (length_map air_key), Ha; vm_compute; reflexivity|].
  split; [| split; [|exact Hc]].
  - replace (map Air.Date air) with (map fst (map air_key air))
      by (rewrite map_map; reflexivity).
    rewrite Ha. vm_compute. reflexivity.
  - replace (map Air.Station air) with (map snd (map air_key air))
      by (rewrite map_map; reflexivity).
    rewrite Ha. vm_compute. reflexivity.
Qed.

(** X9.  The species loop body of lines 139-151, entered for any date
    with [station] bound to 'Commercial District', completes whatever the
    draws: it appends one row per species, each count at least 10 and
    each the clamped, truncated draw around 120 times the trend of the
    month (the 50 of line 142 is behind none), and leaves [station] as it
    was. *)
Theorem species_loop_counts_around_120 (d : date) (st : Gen.State) :
  Gen.station st = Some commercial ->
  exists rows st',
    for_each species_list (Gen.species_body normal d) st = Some (tt, st')
    /\ Gen.species_data st' = Gen.species_data st ++ rows
    /\ map bio_key rows = map (pair d) species_list
    /\ Forall (fun r => (10 <= Bio.Count r)%Z /\ drawn_around normal 120 r) rows
    /\ Gen.station st' = Some commercial.
Proof.
  intro Hst.
  destruct (species_day_run d species_list st Hst)
    as [rows [st' [E [Hb [Hf [Hk [_ [Hs _]]]]]]]].
  exists rows, st'. repeat (split; [assumption|]). exact Hs.
Qed.

(** X11.  On the rows the air loop of lines 72-104 builds, and whatever
    the water frame, the card loop draws five cards, whatever the draws:
    one per monitoring station, in alphabetical order and not in the
    order of [monitoring_stations], each from the station's row of day
    365 and each showing a PM2.5 of at least 10. *)
Theorem air_frame_station_cards (st0 : Gen.State) (water : list Water.row) :
  exists air st' cards,
    Gen.air_block normal seasonal_factor st0 = Some (air, st')
    /\ station_cards {| air_df := air; water_df := water |} = Some cards
    /\ map card_station cards =
         [ "Commercial District"; "Industrial Area"; "North Zone";
           "Residential Area"; "South Zone" ]%string
    /\ map card_column cards = [ 0; 1; 2; 3; 4 ]%nat
    /\ Forall (fun c => exists row,
                  In row air /\ air_key row = (365%nat, card_station c) /\
                  card_pm25 c = Air.PM2_5 row /\
                  card_status c = station_status (Air.PM2_5 row) /\
                  10 <= card_pm25 c) cards.
Proof.
  destruct (air_block_run st0) as [air [st' [E [Hfl [Hk _]]]]].
  set (s := {| air_df := air; water_df := water |}).
  assert (Hne : air_df s <> []).
  { simpl. intro Hnil. rewrite Hnil in Hk. vm_compute in Hk. discriminate Hk. }
  destruct (station_cards_run s Hne) as [cards [Ec [Hcol [Hst Hf]]]].
  assert (Hmax : max_date (map Air.Date air) = Some 365%nat).
  { replace (map Air.Date air) with (map fst (map air_key air))
      by (rewrite map_map; reflexivity).
    rewrite Hk. vm_compute. reflexivity. }
  assert (Hlatest : latest_air s = filter (fun r => (Air.Date r =? 365)%nat) air).
  { unfold latest_air. simpl air_df. rewrite Hmax. reflexivity. }
  assert (Hstations : map Air.Station (latest_air s) = monitoring_stations).
  { rewrite Hlatest.
    replace (map Air.Station (filter (fun r => (Air.Date r =? 365)%nat) air))
      with (map snd (map air_key (filter (fun r => (Air.Date r =? 365)%nat) air)))
      by (rewrite map_map; reflexivity).
    change (fun r => (Air.Date r =? 365)%nat)
      with (fun r => (fun k : date * string => (fst k =? 365)%nat) (air_key r)).
    rewrite map_filter_key, Hk. vm_compute. reflexivity. }
  rewrite Hstations in Hst.
  exists air, st', cards.
  split; [exact E|]. split; [exact Ec|].
  assert (Hnames : map card_station cards =
                   [ "Commercial District"; "Industrial Area"; "North Zone";
                     "Residential Area"; "South Zone" ]%string)
    by (rewrite Hst; vm_compute; reflexivity).
  split; [exact Hnames|].
  split.
  - rewrite Hcol. rewrite <- (length_map card_station), Hnames. reflexivity.
  - apply Forall_forall. intros c Hc. rewrite Forall_forall in Hf.
    destruct (Hf c Hc) as [pre [row [post [El [Hrs [_ [Hpm Hstat]]]]]]].
    assert (Hin : In row (latest_air s))
      by (rewrite El; apply in_or_app; right; left; reflexivity).
    rewrite Hlatest in Hin. apply filter_In in Hin.
    destruct Hin as [Hrow Hd]. apply Nat.eqb_eq in Hd.
    exists row. split; [exact Hrow|].
    split; [unfold air_key; rewrite Hd, Hrs; reflexivity|].
    split; [exact Hpm|]. split; [exact Hstat|].
    rewrite Hpm. rewrite Forall_forall in Hfl.
    destruct (Hfl row Hrow) as [H10 _]. exact H10.
Qed.

End GeneratedFrames.

Lemma species_loop_counts_around_120_witness :
  exists rows st',
    for_each species_list (Gen.species_body (fun _ _ _ => 12.5) 30%nat)
      (Gen.mkState 0 (Some commercial) [] [] []) = Some (tt, st')
    /\ Gen.species_data st' = [] ++ rows
    /\ map bio_key rows = map (pair 30%nat) species_list
    /\ Forall (fun r => (10 <= Bio.Count r)%Z /\
                        drawn_around (fun _ _ _ => 12.5) 120 r) rows
    /\ Gen.station st' = Some commercial.
Proof.
  apply (species_loop_counts_around_120 (fun _ _ _ => 12.5) 30%nat
           (Gen.mkState 0 (Some commercial) [] [] [])).
  reflexivity.
Defined.

(** ** Alerts and the rows of the frames *)

Lemma existsb_incl {A} (f : A -> bool) (l l' : list A) :
  incl l l' -> existsb f l = true -> existsb f l' = true.
Proof.
  intros Hi H. apply existsb_exists in H. destruct H as [x [Hx Hf]].
  apply existsb_exists. exists x. split; [apply Hi; exact Hx | exact Hf].
Qed.

Lemma existsb_perm {A} (f : A -> bool) (l l' : list A) :
  Permutation l l' -> existsb f l = existsb f l'.
Proof.
  intro Hp.
  destruct (existsb f l) eqn:E, (existsb f l') eqn:E'; try reflexivity.
  - rewrite (existsb_incl f l l') in E'; [discriminate E'| |exact E].
    intros x Hx. exact (Permutation_in x Hp Hx).
  - rewrite (existsb_incl f l' l) in E; [discriminate E| |exact E'].
    intros x Hx. exact (Permutation_in x (Permutation_sym Hp) Hx).
Qed.

(** X12.  The alert list looks at which rows exist, not at their order
    or number: it is the same for two stores whose frames hold the same
    rows in another order, and an alert raised for a store is raised for
    every store that holds all its rows, so rows that are added never
    clear an alert. *)
Theorem evaluate_row_order_and_growth (s s' : Store) :
  (Permutation (air_df s) (air_df s') ->
   Permutation (water_df s) (water_df s') ->
   evaluate s = evaluate s')
  /\ (incl (air_df s) (air_df s') ->
      incl (water_df s) (water_df s') ->
      incl (evaluate s) (evaluate s')).
Proof.
  split.
  - intros Ha Hw. rewrite !evaluate_fired.
    rewrite (existsb_perm mask_pm25 _ _ Ha), (existsb_perm mask_so2 _ _ Ha),
      (existsb_perm mask_ph _ _ Hw). reflexivity.
  - intros Ha Hw a Hin.
    destruct (In_evaluate_cases s a Hin) as [[-> H] | [[-> H] | [-> H]]].
    + apply In_evaluate_pm25. exact (existsb_incl _ _ _ Ha H).
    + apply In_evaluate_ph. exact (existsb_incl _ _ _ Hw H).
    + apply In_evaluate_so2. exact (existsb_incl _ _ _ Ha H).
Qed.

Lemma evaluate_row_order_and_growth_witness :
  incl (evaluate store_two_sites)
       (evaluate {| air_df := air_df store_two_sites ++ air_df store_many_breaches;
                    water_df := [] |}).
Proof.
  apply (proj2 (evaluate_row_order_and_growth store_two_sites
                  {| air_df := air_df store_two_sites ++ air_df store_many_breaches;
                     water_df := [] |})).
  - cbn [air_df]. apply incl_appl. apply incl_refl.
  - cbn [water_df store_two_sites]. apply incl_refl.
Defined.

Lemma filter_length_app {A} (f : A -> bool) (l l' : list A) :
  List.length (filter f (l ++ l')) =
  (List.length (filter f l) + List.length (filter f l'))%nat.
Proof. rewrite filter_app, length_app. reflexivity. Qed.

(** X13.  The "Active Alerts" count adds up over the rows: for the rows
    of two stores put together it is the sum of the two counts, while the
    alert list of the joined store has no more than three entries. *)
Theorem alerts_count_additive (s1 s2 : Store) :
  alerts_count {| air_df := air_df s1 ++ air_df s2;
                  water_df := water_df s1 ++ water_df s2 |}
    = (alerts_count s1 + alerts_count s2)%nat
  /\ (List.length (evaluate {| air_df := air_df s1 ++ air_df s2;
                               water_df := water_df s1 ++ water_df s2 |})
      <= 3)%nat.
Proof.
  split.
  - unfold alerts_count. simpl. rewrite !filter_length_app. lia.
  - rewrite evaluate_fired.
    match goal with
    | |- (List.length (fired ?a _ ++ fired ?b _ ++ fired ?c _) <= 3)%nat =>
        destruct a, b, c; simpl; lia
    end.
Qed.

(** ** Cards and older rows *)

Lemma max_date_intro (l : list date) (m : date) :
  In m l -> (forall x, In x l -> (x <= m)%nat) -> max_date l = Some m.
Proof.
  intros Hin Hle. destruct (max_date l) as [m'|] eqn:E.
  - apply max_date_spec in E. destruct E as [Hin' Hle'].
    specialize (Hle m' Hin'). specialize (Hle' m Hin). f_equal. lia.
  - destruct l; [contradiction | discriminate E].
Qed.

Lemma filter_none {A} (f : A -> bool) (l : list A) :
  Forall (fun x => f x = false) l -> filter f l = [].
Proof.
  induction 1 as [|x l Hx _ IH]; simpl; [reflexivity|].
  rewrite Hx. exact IH.
Qed.

Lemma latest_air_older_rows (s : Store) (pre post : list Air.row)
    (w : list Water.row) (m : date) :
  max_date (map Air.Date (air_df s)) = Some m ->
  Forall (fun r => (Air.Date r < m)%nat) pre ->
  Forall (fun r => (Air.Date r < m)%nat) post ->
  latest_air {| air_df := pre ++ air_df s ++ post; water_df := w |}
    = latest_air s.
Proof.
  intros Hm Hpre Hpost. unfold latest_air. cbn [air_df]. rewrite Hm.
  destruct (max_date_spec _ _ Hm) as [Hin Hle].
  assert (Hm' : max_date (map Air.Date (pre ++ air_df s ++ post)) = Some m).
  { apply max_date_intro.
    - rewrite !map_app. apply in_or_app. right. apply in_or_app. left.
      exact Hin.
    - intros x Hx. rewrite !map_app in Hx.
      apply in_app_or in Hx. destruct Hx as [Hx | Hx];
        [|apply in_app_or in Hx; destruct Hx as [Hx | Hx]].
      + apply in_map_iff in Hx. destruct Hx as [r [<- Hr]].
        rewrite Forall_forall in Hpre. specialize (Hpre r Hr). lia.
      + apply Hle. exact Hx.
      + apply in_map_iff in Hx. destruct Hx as [r [<- Hr]].
        rewrite Forall_forall in Hpost. specialize (Hpost r Hr). lia. }
  rewrite Hm', !filter_app.
  rewrite (filter_none _ pre), (filter_none _ post).
  - rewrite app_nil_r. reflexivity.
  - apply Forall_impl with (2 := Hpost). intros r Hr.
    apply Nat.eqb_neq. lia.
  - apply Forall_impl with (2 := Hpre). intros r Hr.
    apply Nat.eqb_neq. lia.
Qed.

(** X14.  The station cards are drawn from the rows of the latest date
    alone: rows of earlier dates put before or after the rows of the air
    frame, and any change of the water frame, leave every card as it
    is. *)
Theorem station_cards_ignore_older_rows (s : Store) (pre post : list Air.row)
    (w : list Water.row) (m : date) :
  max_date (map Air.Date (air_df s)) = Some m ->
  Forall (fun r => (Air.Date r < m)%nat) pre ->
  Forall (fun r => (Air.Date r < m)%nat) post ->
  station_cards {| air_df := pre ++ air_df s ++ post; water_df := w |}
    = station_cards s.
Proof.
  intros Hm Hpre Hpost. unfold station_cards.
  rewrite (latest_air_older_rows s pre post w m Hm Hpre Hpost). reflexivity.
Qed.

Lemma station_cards_ignore_older_rows_witness :
  station_cards
    {| air_df := [ Air.mk 0%nat "North Zone" 40 80 18 25 35 1.2 ] ++
                 [ Air.mk 1%nat "North Zone" 30 60 18 25 35 1.2 ] ++ [];
       water_df := [] |}
  = station_cards
      {| air_df := [ Air.mk 1%nat "North Zone" 30 60 18 25 35 1.2 ];
         water_df := [ Water.mk 0%nat "River North" 6 6 3 6 15 0.05 ] |}.
Proof.
  apply (station_cards_ignore_older_rows
           {| air_df := [ Air.mk 1%nat "North Zone" 30 60 18 25 35 1.2 ];
              water_df := [ Water.mk 0%nat "River North" 6 6 3 6 15 0.05 ] |}
           [ Air.mk 0%nat "North Zone" 40 80 18 25 35 1.2 ] [] [] 1%nat).
  - reflexivity.
  - constructor; [simpl; lia | constructor].
  - constructor.
Defined.

(** ** Slices and substrings *)

Lemma every_from_nth {A} (m : nat) (l : list A) :
  forall k i,
    nth_error (every_from (S m) k l) i = nth_error l (k + i * S m).
Proof.
  induction l as [|x t IH]; intros k i.
  - simpl. destruct i; destruct (k + _)%nat; reflexivity.
  - destruct k as [|k'].
    + simpl every_from. rewrite Nat.sub_0_r. destruct i as [|j].
      * reflexivity.
      * simpl nth_error at 1. rewrite IH.
        replace (0 + S j * S m)%nat with (S (m + j * S m)) by lia.
        reflexivity.
    + simpl every_from. rewrite IH. reflexivity.
Qed.

(** X15.  The slice [l[::step]] of lines 110 and 138, for a step of at
    least 1, holds at position [i] the element of position [i * step] of
    the list, and nothing beyond the list. *)
Theorem slice_step_nth {A} (step : nat) (l : list A) (i : nat) :
  (1 <= step)%nat ->
  nth_error (slice_step step l) i = nth_error l (i * step).
Proof.
  intro H. destruct step as [|m]; [lia|].
  unfold slice_step. rewrite every_from_nth. reflexivity.
Qed.

Lemma slice_step_nth_witness :
  nth_error (slice_step 7 dates) 52 = nth_error dates (52 * 7).
Proof. apply (slice_step_nth 7 dates 52). lia. Defined.

Lemma prefix_append (n h : string) :
  String.prefix n h = true <-> exists post, h = (n ++ post)%string.
Proof.
  revert h. induction n as [|c n IH]; intro h.
  - destruct h; simpl; split; try reflexivity; intros _; eexists; reflexivity.
  - destruct h as [|c' h]; simpl.
    + split; [discriminate | intros [post H]; discriminate H].
    + destruct (Ascii.ascii_dec c c') as [E | E].
      * subst c'. rewrite IH. split.
        -- intros [post ->]. exists post. reflexivity.
        -- intros [post H]. inversion H. exists post. reflexivity.
      * split; [discriminate|]. intros [post H]. inversion H. congruence.
Qed.

Lemma str_in_nil (needle : string) :
  str_in needle "" = if String.prefix needle "" then true else false.
Proof. reflexivity. Qed.

Lemma str_in_cons (needle : string) (c : ascii) (t : string) :
  str_in needle (String c t) =
    if String.prefix needle (String c t) then true else str_in needle t.
Proof. reflexivity. Qed.

(** X16.  The test [needle in hay] of lines 112 and 141 holds exactly
    when [needle] occurs in [hay], that is when [hay] is some text, then
    [needle], then some text. *)
Theorem str_in_occurs (needle hay : string) :
  str_in needle hay = true <->
  exists pre post, hay = (pre ++ needle ++ post)%string.
Proof.
  induction hay as [|c t IH].
  - rewrite str_in_nil. destruct (String.prefix needle "") eqn:E.
    + split; [|reflexivity]. intros _. apply prefix_append in E.
      destruct E as [post E]. exists ""%string, post. exact E.
    + split; [discriminate|]. intros [pre [post H]].
      destruct pre; [|discriminate H]. simpl in H.
      assert (Hp : String.prefix needle "" = true)
        by (apply prefix_append; exists post; exact H).
      congruence.
  - rewrite str_in_cons. destruct (String.prefix needle (String c t)) eqn:E.
    + split; [|reflexivity]. intros _. apply prefix_append in E.
      destruct E as [post E]. exists ""%string, post. exact E.
    + rewrite IH. split.
      * intros [pre [post H]]. exists (String c pre), post. simpl.
        rewrite H. reflexivity.
      * intros [pre [post H]]. destruct pre as [|c' pre].
        -- simpl in H.
           assert (Hp : String.prefix needle (String c t) = true)
             by (apply prefix_append; exists post; exact H).
           congruence.
        -- simpl in H. inversion H. exists pre, post. reflexivity.
Qed.
